(** * tasty-sharedauth: the shared-link view and the TOTP display

    A shallow embedding of the two React components that carry the code
    lifecycle of the dashboard:

    - [SharedGroupView] (src/components/shared/SharedGroupView.tsx): the
      countdown formatter, the share-link verification, the initial load
      and the realtime deletion handler;
    - [TOTPDisplay]: the refresh loop that generates a code, persists it
      and tracks the countdown.

    JavaScript numbers that hold millisecond or second counts are integers
    and are modelled by [Z]; [Math.floor (a / b)] for a positive [b] is
    [Z.div], the remainder operator [%] is [Z.rem] (sign of the dividend).
    Strings are [string], read as the UTF-8 bytes of the JavaScript
    string, so that equality, emptiness and concatenation are those of
    the program; what depends on the characters themselves
    ([toLowerCase], [length], the parsing of a date) is a parameter.
    Component state lives in records and every [setX] call is a record
    update; asynchronous calls are modelled by the value they settle
    with. *)

From Stdlib Require Import ZArith List Bool Ascii String Lia.
From Stdlib Require Import DecimalString.
Import ListNotations.

Local Open Scope Z_scope.
Local Open Scope string_scope.

(** ** The JavaScript primitives the components rely on *)

Module Js.

(** Truthiness of a [string | null | undefined] value: [null],
    [undefined] and the empty string are falsy. *)
Definition truthy (v : option string) : bool :=
  match v with
  | None => false
  | Some s => negb (s =? "")
  end.

(** [String(n)] for an integer-valued number (below 1e21, where
    JavaScript still prints plain decimal digits). *)
Definition numberToString (n : Z) : string :=
  NilZero.string_of_int (Z.to_int n).

(** [String.prototype.toLowerCase] is a parameter of the development
    (see [SharedGroupView]). [sampleLowerCase] is the instance the worked
    examples use: it moves the letters A..Z to a..z and keeps every other
    byte, which is what [toLowerCase] does on a string of ASCII
    characters; the examples only apply it to such strings. *)
Definition lowerChar (c : ascii) : ascii :=
  let n := nat_of_ascii c in
  if andb (Nat.leb 65 n) (Nat.leb n 90) then ascii_of_nat (n + 32) else c.

Fixpoint sampleLowerCase (s : string) : string :=
  match s with
  | EmptyString => EmptyString
  | String c rest => String (lowerChar c) (sampleLowerCase rest)
  end.

(** [Array.prototype.includes] on an array of strings (strict
    equality on each element). *)
Fixpoint includes (xs : list string) (x : string) : bool :=
  match xs with
  | [] => false
  | y :: rest => if y =? x then true else includes rest x
  end.

(** A number that may be [NaN]: the time value of a [Date], or the
    result of arithmetic on one. Comparisons with [NaN] are false. *)
Inductive number : Type :=
| NaN
| Num (z : Z).

Definition lt (a b : number) : bool :=
  match a, b with
  | Num x, Num y => (x <? y)%Z
  | _, _ => false
  end.

Definition le (a b : number) : bool :=
  match a, b with
  | Num x, Num y => (x <=? y)%Z
  | _, _ => false
  end.

Definition sub (a b : number) : number :=
  match a, b with
  | Num x, Num y => Num (x - y)
  | _, _ => NaN
  end.

(** [Math.floor (a / d)] for a positive integer constant [d]. *)
Definition floorDiv (a : number) (d : Z) : number :=
  match a with
  | Num x => Num (x / d)
  | NaN => NaN
  end.

(** Truthiness of a [number | null]: [null], [NaN] and [0] are falsy. *)
Definition truthyNumber (v : option number) : bool :=
  match v with
  | Some (Num z) => negb (z =? 0)%Z
  | _ => false
  end.

(** A settled promise. *)
Inductive Settled (A : Type) : Type :=
| Resolved (value : A)
| Rejected (message : string).
Arguments Resolved {A} value.
Arguments Rejected {A} message.

End Js.

(** ** SharedGroupView *)

Module SharedGroupView.

Import Js.

(** *** Data (lines 7-31) *)

Record Code : Type := mkCode {
  code_id : string;
  code_group_id : string;
  code : string;
  code_created_at : string;
  code_expires_at : string
}.

Record SharedGroup : Type := mkSharedGroup {
  shared_group_id : string;
  title : string;
  description : option string;
  codes : option (list Code)
}.

Inductive AccessType : Type := anyone | restricted.

Record ShareLink : Type := mkShareLink {
  id : string;
  group_id : string;
  access_token : string;
  expires_at : option string;
  one_time_view : bool;
  views_count : Z;
  access_type : AccessType;
  allowed_emails : option (list string)
}.

(** The authentication session, as far as the view reads it:
    [session?.user?.email]. *)
Record User : Type := mkUser { email : option string }.
Record Session : Type := mkSession { user : option User }.

Definition sessionEmail (session : option Session) : option string :=
  match session with
  | Some s => match user s with Some u => email u | None => None end
  | None => None
  end.

(** *** Component state (lines 35-42) *)

Record State : Type := mkState {
  loading : bool;
  error : option string;
  group : option SharedGroup;
  latestCode : option Code;
  shareLink : option ShareLink;
  linkTimeRemaining : option number;
  isNearingExpiry : bool;
  wasDeleted : bool
}.

Definition initialState : State :=
  {| loading := true; error := None; group := None; latestCode := None;
     shareLink := None; linkTimeRemaining := None;
     isNearingExpiry := false; wasDeleted := false |}.

Definition setLoading (v : bool) (st : State) : State :=
  {| loading := v; error := error st; group := group st;
     latestCode := latestCode st; shareLink := shareLink st;
     linkTimeRemaining := linkTimeRemaining st;
     isNearingExpiry := isNearingExpiry st; wasDeleted := wasDeleted st |}.

Definition setError (v : option string) (st : State) : State :=
  {| loading := loading st; error := v; group := group st;
     latestCode := latestCode st; shareLink := shareLink st;
     linkTimeRemaining := linkTimeRemaining st;
     isNearingExpiry := isNearingExpiry st; wasDeleted := wasDeleted st |}.

Definition setGroup (v : option SharedGroup) (st : State) : State :=
  {| loading := loading st; error := error st; group := v;
     latestCode := latestCode st; shareLink := shareLink st;
     linkTimeRemaining := linkTimeRemaining st;
     isNearingExpiry := isNearingExpiry st; wasDeleted := wasDeleted st |}.

Definition setLatestCode (v : option Code) (st : State) : State :=
  {| loading := loading st; error := error st; group := group st;
     latestCode := v; shareLink := shareLink st;
     linkTimeRemaining := linkTimeRemaining st;
     isNearingExpiry := isNearingExpiry st; wasDeleted := wasDeleted st |}.

Definition setShareLink (v : option ShareLink) (st : State) : State :=
  {| loading := loading st; error := error st; group := group st;
     latestCode := latestCode st; shareLink := v;
     linkTimeRemaining := linkTimeRemaining st;
     isNearingExpiry := isNearingExpiry st; wasDeleted := wasDeleted st |}.

Definition setLinkTimeRemaining (v : option number) (st : State) : State :=
  {| loading := loading st; error := error st; group := group st;
     latestCode := latestCode st; shareLink := shareLink st;
     linkTimeRemaining := v;
     isNearingExpiry := isNearingExpiry st; wasDeleted := wasDeleted st |}.

Definition setIsNearingExpiry (v : bool) (st : State) : State :=
  {| loading := loading st; error := error st; group := group st;
     latestCode := latestCode st; shareLink := shareLink st;
     linkTimeRemaining := linkTimeRemaining st;
     isNearingExpiry := v; wasDeleted := wasDeleted st |}.

Definition setWasDeleted (v : bool) (st : State) : State :=
  {| loading := loading st; error := error st; group := group st;
     latestCode := latestCode st; shareLink := shareLink st;
     linkTimeRemaining := linkTimeRemaining st;
     isNearingExpiry := isNearingExpiry st; wasDeleted := v |}.

(** *** The backend, as one run of a callback sees it

    A supabase call answers with [{ data, error }]; [resp_error] holds
    the error's message. The record gives the answer of every call the
    component makes, as a function of the call's arguments, and the
    clock reading [new Date()]. The client reports failures in the
    [error] field; the only exceptions inside [loadSharedGroup] are the
    ones the function throws itself. *)

Record Response (A : Type) : Type := mkResponse {
  resp_data : option A;
  resp_error : option string
}.
Arguments mkResponse {A} resp_data resp_error.
Arguments resp_data {A} r.
Arguments resp_error {A} r.

Record ViewData : Type := mkViewData { link : option ShareLink }.

Record Backend : Type := mkBackend {
  supabase : bool;
  getSession : option Session;
  select_shared_link : string -> string -> Response ShareLink;
  select_link_id : string -> Response string;
  handle_share_link_view : string -> string -> Response ViewData;
  select_group : string -> Response SharedGroup;
  select_latest_codes : string -> Response (list Code);
  now : Z
}.

(** The backend calls a callback issues, in order. *)
Inductive BackendCall : Type :=
| CallGetSession
| CallSelectSharedLink (groupId token : string)
| CallSelectLinkId (linkId : string)
| CallHandleShareLinkView (groupId token : string)
| CallSelectGroup (groupId : string)
| CallSelectLatestCodes (groupId : string).

Definition isRegisterView (c : BackendCall) : bool :=
  match c with
  | CallHandleShareLinkView _ _ => true
  | _ => false
  end.

Definition text (v : option string) : string :=
  match v with Some s => s | None => "" end.

(** [formatTimeRemaining], lines 50-66. *)
Definition formatTimeRemaining (ms : Z) : string :=
  let seconds := ms / 1000 in
  let minutes := seconds / 60 in
  let hours := minutes / 60 in
  let days := hours / 24 in
  if (0 <? days)%Z then
    numberToString days ++ "d " ++ numberToString (Z.rem hours 24) ++ "h"
  else if (0 <? hours)%Z then
    numberToString hours ++ "h " ++ numberToString (Z.rem minutes 60) ++ "m"
  else if (0 <? minutes)%Z then
    numberToString minutes ++ "m " ++ numberToString (Z.rem seconds 60) ++ "s"
  else
    numberToString seconds ++ "s".

Definition msgDeleted : string :=
  "This shared link has been deleted by the administrator.".
Definition msgExpired : string := "This share link has expired".
Definition msgInvalidParameters : string := "Invalid link parameters".
Definition msgNotFound : string :=
  "This share link is invalid or has been deleted".
Definition msgLoginRequired : string :=
  "You must be logged in to access this link".
Definition msgAccessDenied (userEmail : string) : string :=
  "Access denied. Your email (" ++ userEmail
    ++ ") is not authorized to view this link.".
Definition msgNoLongerValid : string := "This share link is no longer valid".
Definition msgAlreadyUsed : string := "Share link not found or already used".
Definition msgLoadFailed : string := "Failed to load shared group".

(** [validateLinkExists], lines 69-91. *)
Definition validateLinkExists (b : Backend) (groupId : option string)
    (st : State) : State * list BackendCall :=
  let linkId := option_map id (shareLink st) in
  if negb (supabase b) || negb (truthy groupId) || negb (truthy linkId) then
    (st, [])
  else
    let r := select_link_id b (text linkId) in
    let calls := [CallSelectLinkId (text linkId)] in
    match resp_error r with
    | Some _ => (st, calls)
    | None =>
        match resp_data r with
        | None =>
            (setGroup None (setError (Some msgDeleted) (setWasDeleted true st)),
             calls)
        | Some _ => (st, calls)
        end
    end.

(** The realtime effect (lines 94-159) subscribes only under this guard. *)
Definition monitoring (b : Backend) (groupId : option string)
    (st : State) : bool :=
  supabase b && truthy groupId && truthy (option_map id (shareLink st)).

(** The DELETE handler of [linkChannel], lines 113-116: the payload is
    logged and [validateLinkExists] runs. *)
Definition onLinkDeleted (payload : string) (b : Backend)
    (groupId : option string) (st : State) : State * list BackendCall :=
  validateLinkExists b groupId st.

(** The INSERT handler of [codeChannel], lines 131-144. *)
Definition onCodeInserted (b : Backend) (groupId : string)
    (st : State) : State * list BackendCall :=
  let r := select_latest_codes b groupId in
  (match resp_data r with
   | Some (c :: _) => setLatestCode (Some c) st
   | _ => st
   end, [CallSelectLatestCodes groupId]).

Section WithDate.

(** [new Date(s).getTime()]: the time value of a timestamp string in
    milliseconds, [NaN] for a string that is no date. *)
Variable Date_parse : string -> number.

(** [String.prototype.toLowerCase], on strings of any alphabet. *)
Variable toLowerCase : string -> string.

(** The countdown [updateTimer], lines 168-191; the effect runs it
    only when [shareLink?.expires_at] is truthy. The result is [None]
    when the function throws: for an [expires_at] that is no date,
    [expiryDate.toISOString()] in the log call of lines 173-178 raises a
    RangeError before any setter runs. *)
Definition updateTimer (nowMs : Z) (st : State) : option State :=
  match shareLink st with
  | None => Some st
  | Some l =>
      if negb (truthy (expires_at l)) then Some st
      else
        match Date_parse (text (expires_at l)) with
        | NaN => None
        | Num expiry =>
            let remainingMs := sub (Num expiry) (Num nowMs) in
            if le remainingMs (Num 0) then
              Some (setError (Some msgExpired)
                      (setLinkTimeRemaining (Some (Num 0)) st))
            else
              let minutes := floorDiv remainingMs (1000 * 60) in
              Some (setIsNearingExpiry (lt minutes (Num 5))
                      (setLinkTimeRemaining (Some remainingMs) st))
        end
  end.

(** *** [verifyShareLink], lines 219-267

    Every [setError (...); return false] pair of the function is one
    constructor of [Verdict]; [LinkValid] is the final [return true]. *)
Inductive Verdict : Type :=
| InvalidParameters
| LinkNotFound
| LoginRequired
| AccessDenied (userEmail : string)
| LinkExpired
| LinkValid.

(** "Check access restrictions", lines 243-258: the verdict that
    ends the function there, if any. *)
Definition accessRestriction (session : option Session) (l : ShareLink)
    : option Verdict :=
  match access_type l with
  | restricted =>
      if negb (truthy (sessionEmail session)) then Some LoginRequired
      else
        let userEmail := toLowerCase (text (sessionEmail session)) in
        let allowedEmails :=
          match allowed_emails l with Some es => es | None => [] end in
        let hasAccess := includes allowedEmails userEmail in
        if negb hasAccess then Some (AccessDenied userEmail) else None
  | anyone => None
  end.

(** "Check expiration", lines 260-266. *)
Definition expiration (l : ShareLink) (nowMs : Z) : Verdict :=
  if truthy (expires_at l)
     && lt (Date_parse (text (expires_at l))) (Num nowMs)
  then LinkExpired
  else LinkValid.

(** Lines 243-266, once the link row is at hand. *)
Definition checkShareLink (session : option Session) (l : ShareLink)
    (nowMs : Z) : Verdict :=
  match accessRestriction session l with
  | Some v => v
  | None => expiration l nowMs
  end.

Definition verdict (b : Backend) (groupId token : option string) : Verdict :=
  if negb (supabase b) || negb (truthy groupId) || negb (truthy token) then
    InvalidParameters
  else
    let session := getSession b in
    let r := select_shared_link b (text groupId) (text token) in
    match resp_error r, resp_data r with
    | None, Some l => checkShareLink session l (now b)
    | _, _ => LinkNotFound
    end.

Definition verdictMessage (v : Verdict) : option string :=
  match v with
  | InvalidParameters => Some msgInvalidParameters
  | LinkNotFound => Some msgNotFound
  | LoginRequired => Some msgLoginRequired
  | AccessDenied userEmail => Some (msgAccessDenied userEmail)
  | LinkExpired => Some msgExpired
  | LinkValid => None
  end.

Definition verdictCalls (groupId token : option string) (v : Verdict)
    : list BackendCall :=
  match v with
  | InvalidParameters => []
  | _ => [CallGetSession; CallSelectSharedLink (text groupId) (text token)]
  end.

(** The function itself: the returned boolean, the state after its
    [setError] (if any), and the calls it made. *)
Definition verifyShareLink (b : Backend) (groupId token : option string)
    (st : State) : bool * State * list BackendCall :=
  let v := verdict b groupId token in
  match verdictMessage v with
  | Some m => (false, setError (Some m) st, verdictCalls groupId token v)
  | None => (true, st, verdictCalls groupId token v)
  end.

(** *** The initial load, lines 270-364

    [mounted] is flipped by the effect's cleanup, which can run while
    one of the awaited calls of [loadSharedGroup] is pending:
    [unmountDuring = Some k] says it ran during the [k]-th await
    (1 [verifyShareLink], 2 the view procedure, 3 the group query,
    4 the code query), [None] that it did not run. *)
Definition mountedAfter (unmountDuring : option nat) (k : nat) : bool :=
  match unmountDuring with
  | None => true
  | Some n => Nat.ltb k n
  end.

(** [catch (err)], lines 337-341. *)
Definition catchLoad (mounted : bool) (message : string) (st : State)
    : State :=
  if mounted then
    setError (Some (if message =? "" then msgLoadFailed else message)) st
  else st.

(** [finally], lines 342-346. *)
Definition finallyLoad (mounted : bool) (st : State) : State :=
  if mounted then setLoading false st else st.

Definition loadSharedGroup (b : Backend) (groupId token : option string)
    (unmountDuring : option nat) (st : State) : State * list BackendCall :=
  if negb (supabase b) || negb (truthy groupId) || negb (truthy token) then
    (setLoading false (setError (Some msgInvalidParameters) st), [])
  else
    let mounted := mountedAfter unmountDuring in
    let '(isValid, st1, calls1) := verifyShareLink b groupId token st in
    if negb isValid || negb (mounted 1%nat) then
      (finallyLoad (mounted 1%nat) st1, calls1)
    else
      let view := handle_share_link_view b (text groupId) (text token) in
      let calls2 :=
        (calls1 ++ [CallHandleShareLinkView (text groupId) (text token)])%list
      in
      match resp_error view with
      | Some message =>
          (finallyLoad (mounted 2%nat)
             (catchLoad (mounted 2%nat) message st1), calls2)
      | None =>
          match
            match resp_data view with Some d => link d | None => None end
          with
          | None =>
              (finallyLoad (mounted 2%nat)
                 (catchLoad (mounted 2%nat) msgAlreadyUsed st1), calls2)
          | Some l =>
              let st2 :=
                if mounted 2%nat then setShareLink (Some l) st1 else st1 in
              let groupAnswer := select_group b (text groupId) in
              let calls3 :=
                (calls2 ++ [CallSelectGroup (text groupId)])%list in
              match resp_error groupAnswer with
              | Some message =>
                  (finallyLoad (mounted 3%nat)
                     (catchLoad (mounted 3%nat) message st2), calls3)
              | None =>
                  let codesAnswer :=
                    select_latest_codes b (text groupId) in
                  let calls4 :=
                    (calls3 ++ [CallSelectLatestCodes (text groupId)])%list
                  in
                  let st3 :=
                    match resp_error codesAnswer with
                    | Some _ => st2
                    | None =>
                        setLatestCode
                          (match resp_data codesAnswer with
                           | Some (c :: _) => Some c
                           | _ => None
                           end) st2
                    end in
                  let st4 :=
                    if mounted 4%nat
                    then setGroup (resp_data groupAnswer) st3
                    else st3 in
                  (finallyLoad (mounted 4%nat) st4, calls4)
              end
          end
      end.

(** The periodic verification, lines 352-358. *)
Definition periodicCheck (b : Backend) (groupId token : option string)
    (mounted : bool) (st : State) : State * list BackendCall :=
  let '(isStillValid, st1, calls) := verifyShareLink b groupId token st in
  if negb isStillValid && mounted then
    (setGroup None (setError (Some msgNoLongerValid) st1), calls)
  else (st1, calls).

End WithDate.

(** [getStatusMessage], lines 199-216. *)
Definition getStatusMessage (st : State) : string :=
  match shareLink st with
  | None => ""
  | Some l =>
      if negb (truthy (expires_at l)) then
        if one_time_view l
        then "Single-use link (expires after viewing)"
        else "No expiration"
      else
        match linkTimeRemaining st with
        | Some (Num ms) =>
            if (ms <=? 0)%Z then "Link expired"
            else
              let timeText := formatTimeRemaining ms in
              if one_time_view l
              then "Single-use link (expires in " ++ timeText ++ ")"
              else "Link expires in " ++ timeText
        | _ => "Link expired"
        end
  end.

(** What the component renders, lines 366-439. *)
Inductive Screen : Type :=
| ErrorScreen (message : string) (isDeletion : bool)
| LoadingScreen
| ReadyScreen (shown : SharedGroup) (codeText status : string).

Definition render (st : State) : Screen :=
  if truthy (error st) then ErrorScreen (text (error st)) (wasDeleted st)
  else
    match group st with
    | None => LoadingScreen
    | Some g =>
        if loading st then LoadingScreen
        else
          ReadyScreen g
            (match latestCode st with
             | Some c => if code c =? "" then "------" else code c
             | None => "------"
             end)
            (getStatusMessage st)
    end.

(** The countdown text as the specification words it: at least a day
    gives days and hours of the day, at least an hour gives hours and
    minutes of the hour, at least a minute gives minutes and seconds of
    the minute, less gives the seconds. *)
Definition unitPairText (ms : Z) : string :=
  let d := ms / 86400000 in
  let h := (ms / 3600000) mod 24 in
  let m := (ms / 60000) mod 60 in
  let s := (ms / 1000) mod 60 in
  if (86400000 <=? ms)%Z then
    numberToString d ++ "d " ++ numberToString h ++ "h"
  else if (3600000 <=? ms)%Z then
    numberToString h ++ "h " ++ numberToString m ++ "m"
  else if (60000 <=? ms)%Z then
    numberToString m ++ "m " ++ numberToString s ++ "s"
  else
    numberToString s ++ "s".

(** The allow-list as the access check reads it:
    [shareLink.allowed_emails || []]. *)
Definition allowedList (l : ShareLink) : list string :=
  match allowed_emails l with Some es => es | None => [] end.

(** A session that carries the given email. *)
Definition signedIn (e : string) : option Session :=
  Some (mkSession (Some (mkUser (Some e)))).

(** Sample data for the worked examples below. [sampleDate] gives the
    time value of the one timestamp the examples use and [NaN] for
    every other string. *)
Definition newYear2024 : string := "2024-01-01T00:00:00.000Z".
Definition newYear2024Ms : Z := 1704067200000.

Definition sampleDate (s : string) : number :=
  if s =? newYear2024 then Num newYear2024Ms else NaN.

Definition sampleLink (access : AccessType) (expires : option string)
    (allowed : option (list string)) : ShareLink :=
  {| id := "link-1"; group_id := "group-1"; access_token := "tok";
     expires_at := expires; one_time_view := false; views_count := 0;
     access_type := access; allowed_emails := allowed |}.

Definition sampleGroup : SharedGroup :=
  {| shared_group_id := "group-1"; title := "Team"; description := None;
     codes := None |}.

(** A backend that holds [l] under ("group-1", "tok"), for a requester
    with the given session, at the clock reading [nowMs]. *)
Definition sampleBackend (session : option Session) (l : option ShareLink)
    (nowMs : Z) : Backend :=
  {| supabase := true;
     getSession := session;
     select_shared_link := fun _ _ => mkResponse l None;
     select_link_id := fun _ => mkResponse (option_map id l) None;
     handle_share_link_view :=
       fun _ _ => mkResponse (Some (mkViewData l)) None;
     select_group := fun _ => mkResponse (Some sampleGroup) None;
     select_latest_codes := fun _ => mkResponse (Some []) None;
     now := nowMs |}.

End SharedGroupView.

(** ** TOTPDisplay

    The effect of the component (lines 16-79) owns an activity flag, two
    intervals and the calls of [updateCode] that are suspended at an
    [await]. One [step] is one callback of the event loop: an interval
    firing, a promise settling, or the effect's cleanup. *)

Module TOTPDisplay.

Import Js.

(** Component state, lines 12-14. *)
Record Display : Type := mkDisplay {
  code : string;
  updateError : bool;
  timeRemaining : Z
}.

Definition initialDisplay : Display :=
  {| code := ""; updateError := false; timeRemaining := 30 |}.

(** A call of [updateCode] suspended at line 27 ([generateTOTP]) or at
    line 33 ([updateModelCode], with the code it passed). *)
Inductive Suspended : Type :=
| AwaitGenerate
| AwaitPersist (newCode : string).

Inductive Call : Type :=
| CallGenerateTOTP (secret : string)
| CallUpdateModelCode (modelId newCode : string).

Record World : Type := mkWorld {
  display : Display;
  isActive : bool;
  timerInterval : bool;
  forceUpdateInterval : bool;
  pending : list Suspended;
  calls : list Call
}.

Definition setCode (v : string) (w : World) : World :=
  {| display := {| code := v; updateError := updateError (display w);
                   timeRemaining := timeRemaining (display w) |};
     isActive := isActive w; timerInterval := timerInterval w;
     forceUpdateInterval := forceUpdateInterval w;
     pending := pending w; calls := calls w |}.

Definition setUpdateError (v : bool) (w : World) : World :=
  {| display := {| code := code (display w); updateError := v;
                   timeRemaining := timeRemaining (display w) |};
     isActive := isActive w; timerInterval := timerInterval w;
     forceUpdateInterval := forceUpdateInterval w;
     pending := pending w; calls := calls w |}.

Definition setTimeRemaining (v : Z) (w : World) : World :=
  {| display := {| code := code (display w);
                   updateError := updateError (display w);
                   timeRemaining := v |};
     isActive := isActive w; timerInterval := timerInterval w;
     forceUpdateInterval := forceUpdateInterval w;
     pending := pending w; calls := calls w |}.

Definition setPending (v : list Suspended) (w : World) : World :=
  {| display := display w; isActive := isActive w;
     timerInterval := timerInterval w;
     forceUpdateInterval := forceUpdateInterval w;
     pending := v; calls := calls w |}.

Definition logCall (c : Call) (w : World) : World :=
  {| display := display w; isActive := isActive w;
     timerInterval := timerInterval w;
     forceUpdateInterval := forceUpdateInterval w;
     pending := pending w; calls := (calls w ++ [c])%list |}.

Fixpoint removeAt {A : Type} (i : nat) (l : list A) : list A :=
  match l, i with
  | [], _ => []
  | _ :: rest, O => rest
  | x :: rest, S j => x :: removeAt j rest
  end.

Fixpoint replaceAt {A : Type} (i : nat) (v : A) (l : list A) : list A :=
  match l, i with
  | [], _ => []
  | _ :: rest, O => v :: rest
  | x :: rest, S j => x :: replaceAt j v rest
  end.

Section Effect.

(** The props the effect closed over; [secret] is truthy there. *)
Variables secret modelId : string.

(** [updateCode], lines 23-27: up to the first [await]. *)
Definition updateCode (w : World) : World :=
  if negb (isActive w) then w
  else
    setPending (pending w ++ [AwaitGenerate])%list
      (logCall (CallGenerateTOTP secret) w).

(** The [catch] block, lines 42-47. *)
Definition catchUpdate (i : nat) (w : World) : World :=
  let w := setPending (removeAt i (pending w)) w in
  if negb (isActive w) then w
  else setCode "Error" (setUpdateError true w).

(** Lines 27-33: the call suspended at index [i] resumes after
    [generateTOTP] settled. *)
Definition resumeGenerated (i : nat) (r : Settled string) (w : World)
    : World :=
  match r with
  | Resolved newCode =>
      if negb (isActive w) then setPending (removeAt i (pending w)) w
      else
        setPending (replaceAt i (AwaitPersist newCode) (pending w))
          (logCall (CallUpdateModelCode modelId newCode)
             (setCode newCode w))
  | Rejected _ => catchUpdate i w
  end.

(** Lines 33-41: the call suspended at index [i] resumes after
    [updateModelCode] settled. *)
Definition resumePersisted (i : nat) (r : Settled bool) (w : World)
    : World :=
  match r with
  | Resolved updated =>
      let w := setPending (removeAt i (pending w)) w in
      if negb (isActive w) then w
      else if negb updated then setUpdateError true w
      else setUpdateError false w
  | Rejected _ => catchUpdate i w
  end.

(** [updateTimer], lines 50-59; [remaining] is what
    [getTimeRemaining ()] returned. *)
Definition updateTimer (remaining : Z) (w : World) : World :=
  if negb (isActive w) then w
  else
    let w := setTimeRemaining remaining w in
    if (remaining =? 30)%Z || (remaining =? 0)%Z then updateCode w else w.

(** The callback of [forceUpdateInterval], lines 66-69. *)
Definition forceUpdate (w : World) : World :=
  if negb (isActive w) then w else updateCode w.

(** The cleanup, lines 74-78. *)
Definition cleanup (w : World) : World :=
  {| display := display w; isActive := false;
     timerInterval := false; forceUpdateInterval := false;
     pending := pending w; calls := calls w |}.

Inductive Event : Type :=
| TimerFires (remaining : Z)
| ForceFires
| GenerateSettles (i : nat) (r : Settled string)
| PersistSettles (i : nat) (r : Settled bool)
| Deactivate.

(** One callback of the event loop. A cleared interval does not fire;
    a promise settles only for a call that is suspended on it. *)
Definition step (e : Event) (w : World) : World :=
  match e with
  | TimerFires remaining =>
      if timerInterval w then updateTimer remaining w else w
  | ForceFires =>
      if forceUpdateInterval w then forceUpdate w else w
  | GenerateSettles i r =>
      match nth_error (pending w) i with
      | Some AwaitGenerate => resumeGenerated i r w
      | _ => w
      end
  | PersistSettles i r =>
      match nth_error (pending w) i with
      | Some (AwaitPersist _) => resumePersisted i r w
      | _ => w
      end
  | Deactivate => cleanup w
  end.

Fixpoint run (events : list Event) (w : World) : World :=
  match events with
  | [] => w
  | e :: rest => run rest (step e w)
  end.

End Effect.

(** The effect body, lines 16-72, for the value [remaining] that the
    first [getTimeRemaining ()] returns: nothing is set up for a falsy
    [secret]. *)
Definition runEffect (secret : option string) (modelId : string)
    (remaining : Z) (d : Display) : option World :=
  if negb (truthy secret) then None
  else
    let s := match secret with Some s => s | None => "" end in
    let w := {| display := d; isActive := true; timerInterval := false;
                forceUpdateInterval := false; pending := []; calls := [] |} in
    let w := updateTimer s remaining (updateCode s w) in
    Some {| display := display w; isActive := isActive w;
            timerInterval := true; forceUpdateInterval := true;
            pending := pending w; calls := calls w |}.

(** Sample data for the worked examples below: the world right after
    the effect started for [sampleSecret], with 17 seconds left. *)
Definition sampleSecret : string := "JBSWY3DPEHPK3PXP".
Definition sampleModel : string := "model-1".

Definition sampleStart : World :=
  {| display := {| code := ""; updateError := false; timeRemaining := 17 |};
     isActive := true; timerInterval := true; forceUpdateInterval := true;
     pending := [AwaitGenerate];
     calls := [CallGenerateTOTP sampleSecret] |}.

End TOTPDisplay.

(** ** The callbacks of SharedGroupView as one loop

    Every callback the component registers, with the backend snapshot it
    runs against: the initial load, the periodic verification
    (lines 352-358), the two realtime handlers, the existence poll
    (lines 149-151) and the countdown tick (line 194). *)

Module SharedGroupViewLoop.

Import Js SharedGroupView.

Inductive Callback : Type :=
| InitialLoad (unmountDuring : option nat)
| PeriodicVerification (mounted : bool)
| LinkDeletedEvent (payload : string)
| ExistencePoll
| CodeInsertedEvent
| CountdownTick.

Section WithDate.

Variable Date_parse : string -> number.
Variable toLowerCase : string -> string.

(** The router values [groupId] and [token] of the mounted page. *)
Variables groupId token : option string.

(** The realtime handlers exist only while the effect of lines 94-159
    is subscribed. A countdown tick that throws sets nothing. *)
Definition fire (b : Backend) (c : Callback) (st : State) : State :=
  match c with
  | InitialLoad unmountDuring =>
      fst (loadSharedGroup Date_parse toLowerCase b groupId token unmountDuring st)
  | PeriodicVerification mounted =>
      fst (periodicCheck Date_parse toLowerCase b groupId token mounted st)
  | LinkDeletedEvent payload =>
      if monitoring b groupId st
      then fst (onLinkDeleted payload b groupId st)
      else st
  | ExistencePoll =>
      if monitoring b groupId st
      then fst (validateLinkExists b groupId st)
      else st
  | CodeInsertedEvent =>
      if monitoring b groupId st
      then fst (onCodeInserted b (text groupId) st)
      else st
  | CountdownTick =>
      match updateTimer Date_parse (now b) st with
      | Some st' => st'
      | None => st
      end
  end.

Fixpoint fireAll (events : list (Backend * Callback)) (st : State) : State :=
  match events with
  | [] => st
  | (b, c) :: rest => fireAll rest (fire b c st)
  end.

End WithDate.

(** The link [l] with other values in the two fields the one-time view
    lives in. *)
Definition withViews (oneTime : bool) (views : Z) (l : ShareLink)
    : ShareLink :=
  {| id := id l; group_id := group_id l; access_token := access_token l;
     expires_at := expires_at l; one_time_view := oneTime;
     views_count := views; access_type := access_type l;
     allowed_emails := allowed_emails l |}.

(** The five calls of a complete load, in the order of the source. *)
Definition fullLoadCalls (groupId token : option string) : list BackendCall :=
  [CallGetSession;
   CallSelectSharedLink (text groupId) (text token);
   CallHandleShareLinkView (text groupId) (text token);
   CallSelectGroup (text groupId);
   CallSelectLatestCodes (text groupId)].

(** A backend like [sampleBackend] that holds [l], with the given
    answers of the view procedure and of the group query. *)
Definition sampleBackendWith (l : ShareLink) (view : Response ViewData)
    (groupAnswer : Response SharedGroup) : Backend :=
  {| supabase := true;
     getSession := None;
     select_shared_link := fun _ _ => mkResponse (Some l) None;
     select_link_id := fun _ => mkResponse (Some (id l)) None;
     handle_share_link_view := fun _ _ => view;
     select_group := fun _ => groupAnswer;
     select_latest_codes := fun _ => mkResponse (Some []) None;
     now := 0 |}.

Definition publicLink : ShareLink := sampleLink anyone None None.

End SharedGroupViewLoop.

(** ** Counting in the TOTPDisplay loop *)

Module TOTPDisplayCounts.

Import Js TOTPDisplay.

Definition isGenerateCall (c : Call) : bool :=
  match c with CallGenerateTOTP _ => true | _ => false end.

Definition isPersistCall (c : Call) : bool :=
  match c with CallUpdateModelCode _ _ => true | _ => false end.

Definition isAwaitGenerate (s : Suspended) : bool :=
  match s with AwaitGenerate => true | _ => false end.

Definition isAwaitPersist (s : Suspended) : bool :=
  match s with AwaitPersist _ => true | _ => false end.

Definition count {A : Type} (f : A -> bool) (l : list A) : nat :=
  List.length (List.filter f l).

Definition isDeactivate (e : Event) : bool :=
  match e with Deactivate => true | _ => false end.

(** The bookkeeping of the loop: the persist calls made and the
    generations still pending are covered by the generations requested,
    and the pending persist calls by the persist calls made. *)
Definition balanced (w : World) : Prop :=
  (count isPersistCall (calls w) + count isAwaitGenerate (pending w)
   <= count isGenerateCall (calls w))%nat
  /\ (count isAwaitPersist (pending w) <= count isPersistCall (calls w))%nat.

End TOTPDisplayCounts.

(** ** AddModelModal

    The form of the "Add New Model" dialog: its schema (lines 24-29 of
    the file), its default values (lines 44-49) and [handleSubmit]
    (lines 52-60), with the form library's submit and change handling
    around them. *)

Module AddModelModal.

Import Js.

Record FormValues : Type := mkFormValues {
  name : string;
  username : string;
  code : string;
  link : option string
}.

Inductive Field : Type := FieldName | FieldUsername | FieldCode | FieldLink.

Definition fieldKey (f : Field) : string :=
  match f with
  | FieldName => "name"
  | FieldUsername => "username"
  | FieldCode => "code"
  | FieldLink => "link"
  end.

(** The input of field [f] changes to [value]. *)
Definition setField (f : Field) (value : string) (v : FormValues)
    : FormValues :=
  match f with
  | FieldName =>
      {| name := value; username := username v; code := code v;
         link := link v |}
  | FieldUsername =>
      {| name := name v; username := value; code := code v; link := link v |}
  | FieldCode =>
      {| name := name v; username := username v; code := value;
         link := link v |}
  | FieldLink =>
      {| name := name v; username := username v; code := code v;
         link := Some value |}
  end.

(** One issue of the schema: the key of the field and the message. *)
Definition Issue : Type := (string * string)%type.

Definition issuesOf (key : string) (found : list Issue) : list Issue :=
  List.filter (fun i => fst i =? key) found.

Definition defaultValues : FormValues :=
  {| name := ""; username := ""; code := ""; link := Some "" |}.

(** The dialog: the values in the form, the issues on display, whether
    the form has been submitted since its last reset, and the calls of
    the props [onSubmit] and [onClose] so far. *)
Record Modal : Type := mkModal {
  values : FormValues;
  issues : list Issue;
  isSubmitted : bool;
  submitted : list FormValues;
  closed : nat
}.

(** [handleSubmit], lines 52-60, for the way [onSubmit values]
    settles; [form.reset ()] restores the defaults and clears the
    issues and the submitted mark. *)
Definition handleSubmit (v : FormValues) (r : Settled unit) (m : Modal)
    : Modal :=
  let m1 := {| values := values m; issues := issues m;
               isSubmitted := isSubmitted m;
               submitted := (submitted m ++ [v])%list;
               closed := closed m |} in
  match r with
  | Resolved _ =>
      {| values := defaultValues; issues := []; isSubmitted := false;
         submitted := submitted m1; closed := S (closed m1) |}
  | Rejected _ => m1
  end.

Section WithLength.

(** [s.length]: the number of UTF-16 code units of the string. *)
Variable length : string -> nat.

(** [z.string().min(n, message)] on the field with key [field]. *)
Definition min (n : nat) (message field value : string) : list Issue :=
  if Nat.ltb (length value) n then [(field, message)] else [].

(** [formSchema]; [link] is [z.string().optional()] and raises no
    issue for a string or for [undefined]. *)
Definition formSchema (v : FormValues) : list Issue :=
  (min 1 "Name is required" "name" (name v)
   ++ min 1 "Username is required" "username" (username v)
   ++ min 6 "Code must be at least 6 characters" "code" (code v))%list.

(** [form.handleSubmit (handleSubmit)], line 74: the form is marked as
    submitted, the resolver runs the schema on the form's values, and
    the handler is called only when there is no issue. *)
Definition submitForm (r : Settled unit) (m : Modal) : Modal :=
  match formSchema (values m) with
  | [] =>
      handleSubmit (values m) r
        {| values := values m; issues := []; isSubmitted := true;
           submitted := submitted m; closed := closed m |}
  | found =>
      {| values := values m; issues := found; isSubmitted := true;
         submitted := submitted m; closed := closed m |}
  end.

(** A change of field [f] after a submit: the schema runs on the new
    values and the issues of that field alone are replaced; the other
    fields keep what they show. *)
Definition revalidate (f : Field) (v : FormValues) (shown : list Issue)
    : list Issue :=
  let pick (key : string) :=
    if key =? fieldKey f then issuesOf key (formSchema v)
    else issuesOf key shown in
  (pick "name" ++ pick "username" ++ pick "code")%list.

(** What happens to the dialog: the user changes one field, or submits
    the form and [onSubmit] settles in the given way. Before the first
    submit a change validates nothing. *)
Inductive Action : Type :=
| Edit (f : Field) (value : string)
| Submit (r : Settled unit).

Definition act (a : Action) (m : Modal) : Modal :=
  match a with
  | Edit f value =>
      let v := setField f value (values m) in
      {| values := v;
         issues := if isSubmitted m then revalidate f v (issues m)
                   else issues m;
         isSubmitted := isSubmitted m;
         submitted := submitted m; closed := closed m |}
  | Submit r => submitForm r m
  end.

Fixpoint actAll (actions : list Action) (m : Modal) : Modal :=
  match actions with
  | [] => m
  | a :: rest => actAll rest (act a m)
  end.

End WithLength.

Definition freshModal : Modal :=
  {| values := defaultValues; issues := []; isSubmitted := false;
     submitted := []; closed := 0 |}.

End AddModelModal.

(** ** GroupsPage

    The handlers of the groups page: [handleDeleteGroup] (lines 46-67),
    the delete permission (lines 164-166) and the [onSubmit] of the
    "New Group" dialog (lines 199-240). *)

Module GroupsPage.

Import Js.

Record Selected : Type := mkSelected { id : string; title : string }.

Record Toast : Type := mkToast {
  toast_title : string;
  toast_description : string;
  destructive : bool
}.

Inductive Call : Type :=
| CallDeleteGroup (groupId : string)
| CallCreateGroup (title : string) (description : option string)
    (created_by : string)
| CallAddUserToGroup (user_id group_id : string)
| CallRefreshData.

Record Page : Type := mkPage {
  isAddGroupModalOpen : bool;
  isShareModalOpen : bool;
  isDeleteDialogOpen : bool;
  selectedGroup : option Selected;
  isMobileSidebarOpen : bool;
  toasts : list Toast;
  calls : list Call
}.

Definition toast (t : Toast) (p : Page) : Page :=
  {| isAddGroupModalOpen := isAddGroupModalOpen p;
     isShareModalOpen := isShareModalOpen p;
     isDeleteDialogOpen := isDeleteDialogOpen p;
     selectedGroup := selectedGroup p;
     isMobileSidebarOpen := isMobileSidebarOpen p;
     toasts := (toasts p ++ [t])%list; calls := calls p |}.

Definition call (c : Call) (p : Page) : Page :=
  {| isAddGroupModalOpen := isAddGroupModalOpen p;
     isShareModalOpen := isShareModalOpen p;
     isDeleteDialogOpen := isDeleteDialogOpen p;
     selectedGroup := selectedGroup p;
     isMobileSidebarOpen := isMobileSidebarOpen p;
     toasts := toasts p; calls := (calls p ++ [c])%list |}.

Definition setIsAddGroupModalOpen (v : bool) (p : Page) : Page :=
  {| isAddGroupModalOpen := v;
     isShareModalOpen := isShareModalOpen p;
     isDeleteDialogOpen := isDeleteDialogOpen p;
     selectedGroup := selectedGroup p;
     isMobileSidebarOpen := isMobileSidebarOpen p;
     toasts := toasts p; calls := calls p |}.

Definition setIsDeleteDialogOpen (v : bool) (p : Page) : Page :=
  {| isAddGroupModalOpen := isAddGroupModalOpen p;
     isShareModalOpen := isShareModalOpen p;
     isDeleteDialogOpen := v;
     selectedGroup := selectedGroup p;
     isMobileSidebarOpen := isMobileSidebarOpen p;
     toasts := toasts p; calls := calls p |}.

Definition setSelectedGroup (v : option Selected) (p : Page) : Page :=
  {| isAddGroupModalOpen := isAddGroupModalOpen p;
     isShareModalOpen := isShareModalOpen p;
     isDeleteDialogOpen := isDeleteDialogOpen p;
     selectedGroup := v;
     isMobileSidebarOpen := isMobileSidebarOpen p;
     toasts := toasts p; calls := calls p |}.

(** [err.message || fallback]. *)
Definition messageOr (fallback message : string) : string :=
  if message =? "" then fallback else message.

Definition toastDeleted : Toast :=
  {| toast_title := "Success";
     toast_description := "Group deleted successfully";
     destructive := false |}.

Definition toastDeleteFailed (message : string) : Toast :=
  {| toast_title := "Error";
     toast_description := messageOr "Failed to delete group" message;
     destructive := true |}.

Definition toastCreated : Toast :=
  {| toast_title := "Success";
     toast_description := "Group created successfully";
     destructive := false |}.

Definition toastCreateFailed : Toast :=
  {| toast_title := "Error";
     toast_description := "Failed to create group";
     destructive := true |}.

(** [handleDeleteGroup], lines 46-67, for the way [deleteGroup] and
    [refreshData] settle. *)
Definition handleDeleteGroup (deleted refreshed : Settled unit) (p : Page)
    : Page :=
  match selectedGroup p with
  | None => p
  | Some g =>
      let p1 := call (CallDeleteGroup (id g)) p in
      let p2 :=
        match deleted with
        | Rejected message => toast (toastDeleteFailed message) p1
        | Resolved _ =>
            let p3 := call CallRefreshData (toast toastDeleted p1) in
            match refreshed with
            | Rejected message => toast (toastDeleteFailed message) p3
            | Resolved _ => p3
            end
        end in
      setSelectedGroup None (setIsDeleteDialogOpen false p2)
  end.

(** The [created_by] field of a group row as the page receives it:
    absent from the row, null, or a user id. *)
Inductive Column : Type :=
| Missing
| NullValue
| Value (s : string).

(** [group.created_by === localStorage.getItem("userId")]: strict
    equality of the field with a string or null. *)
Definition sameUser (created_by : Column) (userId : option string) : bool :=
  match created_by, userId with
  | Value c, Some u => c =? u
  | NullValue, None => true
  | _, _ => false
  end.

(** The condition under which a card shows its delete button,
    lines 164-166; [currentRole] and [userId] are what [localStorage]
    holds. *)
Definition canDelete (currentRole userId : option string)
    (created_by : Column) : bool :=
  match currentRole with
  | Some role => (role =? "Admin") || (role =? "Manager")
  | None => false
  end
  || sameUser created_by userId.

(** The values of the "New Group" dialog. *)
Record GroupValues : Type := mkGroupValues {
  group_name : string;
  group_description : option string
}.

(** The [onSubmit] of [AddGroupModal], lines 199-240: [created] is the
    id of the group [createGroup] resolves with. *)
Definition onSubmitGroup (userId : option string) (v : GroupValues)
    (created : Settled string) (added refreshed : Settled unit) (p : Page)
    : Page :=
  if negb (truthy userId) then toast toastCreateFailed p
  else
    let u := match userId with Some u => u | None => "" end in
    let p1 :=
      call (CallCreateGroup (group_name v) (group_description v) u) p in
    match created with
    | Rejected _ => toast toastCreateFailed p1
    | Resolved newId =>
        let p2 := call (CallAddUserToGroup u newId) p1 in
        match added with
        | Rejected _ => toast toastCreateFailed p2
        | Resolved _ =>
            let p3 :=
              call CallRefreshData
                (setIsAddGroupModalOpen false (toast toastCreated p2)) in
            match refreshed with
            | Rejected _ => toast toastCreateFailed p3
            | Resolved _ => p3
            end
        end
    end.

(** [toggleMobileSidebar], lines 42-44. *)
Definition toggleMobileSidebar (p : Page) : Page :=
  {| isAddGroupModalOpen := isAddGroupModalOpen p;
     isShareModalOpen := isShareModalOpen p;
     isDeleteDialogOpen := isDeleteDialogOpen p;
     selectedGroup := selectedGroup p;
     isMobileSidebarOpen := negb (isMobileSidebarOpen p);
     toasts := toasts p; calls := calls p |}.

End GroupsPage.

(** ** Facts about SharedGroupView *)

Module SharedGroupViewFacts.

Import Js SharedGroupView.

(** *** The countdown text *)

Lemma units_of_ms (ms : Z) :
  ms / 1000 / 60 = ms / 60000
  /\ ms / 1000 / 60 / 60 = ms / 3600000
  /\ ms / 1000 / 60 / 60 / 24 = ms / 86400000.
Proof.
  repeat split; Z.div_mod_to_equations; lia.
Qed.

Lemma small_mod (a m : Z) : 0 <= a < m -> a mod m = a.
Proof. intros H. apply Z.mod_small. exact H. Qed.

(** C8. For every non-negative number of milliseconds,
    [formatTimeRemaining] prints the largest nonzero unit and the one
    below it: days and hours from one day on, else hours and minutes
    from one hour on, else minutes and seconds from one minute on, else
    the seconds alone; and 90000 gives "1m 30s", 3661000 gives "1h 1m",
    45000 gives "45s", 0 gives "0s". *)
Theorem formatTimeRemaining_unit_pairs (ms : Z) (Hms : 0 <= ms) :
  formatTimeRemaining ms = unitPairText ms
  /\ formatTimeRemaining 90000 = "1m 30s"
  /\ formatTimeRemaining 3661000 = "1h 1m"
  /\ formatTimeRemaining 45000 = "45s"
  /\ formatTimeRemaining 0 = "0s".
Proof.
  split; [| repeat split; reflexivity].
  unfold formatTimeRemaining, unitPairText.
  destruct (units_of_ms ms) as (Hm & Hh & Hd).
  rewrite Hd, Hh, Hm.
  assert (Hs0 : 0 <= ms / 1000) by (Z.div_mod_to_equations; lia).
  assert (Hm0 : 0 <= ms / 60000) by (Z.div_mod_to_equations; lia).
  assert (Hh0 : 0 <= ms / 3600000) by (Z.div_mod_to_equations; lia).
  rewrite !Z.rem_mod_nonneg by lia.
  destruct (Z.ltb_spec 0 (ms / 86400000)) as [Hday | Hday];
    destruct (Z.leb_spec 86400000 ms) as [Hday' | Hday'];
    try (exfalso; Z.div_mod_to_equations; lia); [reflexivity |].
  destruct (Z.ltb_spec 0 (ms / 3600000)) as [Hhour | Hhour];
    destruct (Z.leb_spec 3600000 ms) as [Hhour' | Hhour'];
    try (exfalso; Z.div_mod_to_equations; lia).
  - rewrite (small_mod (ms / 3600000) 24)
      by (Z.div_mod_to_equations; lia).
    reflexivity.
  - destruct (Z.ltb_spec 0 (ms / 60000)) as [Hmin | Hmin];
      destruct (Z.leb_spec 60000 ms) as [Hmin' | Hmin'];
      try (exfalso; Z.div_mod_to_equations; lia).
    + rewrite (small_mod (ms / 60000) 60)
        by (Z.div_mod_to_equations; lia).
      reflexivity.
    + rewrite (small_mod (ms / 1000) 60)
        by (Z.div_mod_to_equations; lia).
      reflexivity.
Qed.

Lemma formatTimeRemaining_unit_pairs_witness :
  0 <= 90061000
  /\ formatTimeRemaining 90061000 = unitPairText 90061000
  /\ formatTimeRemaining 90061000 = "1d 1h".
Proof.
  split; [lia |].
  split; [apply (formatTimeRemaining_unit_pairs 90061000); lia |].
  reflexivity.
Defined.

(** *** Link verification *)

Lemma includes_In (xs : list string) (x : string) :
  includes xs x = true <-> In x xs.
Proof.
  induction xs as [| y rest IH]; simpl.
  - split; [discriminate | contradiction].
  - destruct (String.eqb_spec y x) as [Heq | Hne].
    + split; [intros _; left; exact Heq | reflexivity].
    + rewrite IH. split; [intros H; right; exact H |].
      intros [H | H]; [contradiction | exact H].
Qed.

Lemma truthy_Some (s : string) : s <> "" -> truthy (Some s) = true.
Proof.
  intros H. unfold truthy.
  destruct (String.eqb_spec s "") as [Heq | _]; [contradiction | reflexivity].
Qed.

Lemma lowerChar_idempotent (c : ascii) :
  lowerChar (lowerChar c) = lowerChar c.
Proof. destruct c as [[] [] [] [] [] [] [] []]; reflexivity. Qed.

Lemma sampleLowerCase_idempotent (s : string) :
  sampleLowerCase (sampleLowerCase s) = sampleLowerCase s.
Proof.
  induction s as [| c rest IH]; simpl; [reflexivity |].
  rewrite lowerChar_idempotent, IH. reflexivity.
Qed.

Section WithDate.

Variable Date_parse : string -> number.
Variable toLowerCase : string -> string.

Lemma expiration_past (l : ShareLink) (nowMs : Z) (s : string) (t : Z) :
  expires_at l = Some s -> s <> "" -> Date_parse s = Num t ->
  expiration Date_parse l nowMs
  = if (t <? nowMs)%Z then LinkExpired else LinkValid.
Proof.
  intros Hs Hne Ht. unfold expiration.
  rewrite Hs, (truthy_Some s Hne). simpl. rewrite Ht. reflexivity.
Qed.

Lemma access_anyone (session : option Session) (l : ShareLink) :
  access_type l = anyone -> accessRestriction toLowerCase session l = None.
Proof. intros H. unfold accessRestriction. rewrite H. reflexivity. Qed.

Lemma access_no_email (session : option Session) (l : ShareLink) :
  access_type l = restricted -> truthy (sessionEmail session) = false ->
  accessRestriction toLowerCase session l = Some LoginRequired.
Proof.
  intros H He. unfold accessRestriction. rewrite H, He. reflexivity.
Qed.

Lemma access_email (session : option Session) (l : ShareLink) (e : string) :
  access_type l = restricted -> sessionEmail session = Some e -> e <> "" ->
  accessRestriction toLowerCase session l
  = if includes (allowedList l) (toLowerCase e) then None
    else Some (AccessDenied (toLowerCase e)).
Proof.
  intros H He Hne. unfold accessRestriction, allowedList.
  rewrite H, He, (truthy_Some e Hne). simpl.
  destruct (includes _ _); reflexivity.
Qed.

Lemma verdict_of_row (b : Backend) (groupId token : option string)
    (l : ShareLink) :
  supabase b = true -> truthy groupId = true -> truthy token = true ->
  select_shared_link b (text groupId) (text token) = mkResponse (Some l) None ->
  verdict Date_parse toLowerCase b groupId token
  = checkShareLink Date_parse toLowerCase (getSession b) l (now b).
Proof.
  intros Hs Hg Ht Hr. unfold verdict. rewrite Hs, Hg, Ht, Hr. reflexivity.
Qed.

Lemma verify_returns (b : Backend) (groupId token : option string)
    (st : State) :
  fst (fst (verifyShareLink Date_parse toLowerCase b groupId token st))
  = match verdict Date_parse toLowerCase b groupId token with
    | LinkValid => true
    | _ => false
    end.
Proof.
  unfold verifyShareLink.
  destruct (verdict Date_parse toLowerCase b groupId token); reflexivity.
Qed.

(** C1, amended. A link whose [expires_at] is set and lies before
    [now] is classified as expired once the access check has passed:
    always for an [anyone] link, and for a restricted link exactly
    when the requester's lowercased email is listed. An expired
    restricted link whose requester has no email is answered with the
    login demand, and one whose email is not listed with the access
    denial. *)
Theorem expired_once_access_passes (session : option Session)
    (l : ShareLink) (nowMs : Z) (s : string) (t : Z)
    (Hset : expires_at l = Some s) (Hne : s <> "")
    (Hdate : Date_parse s = Num t) (Hpast : t < nowMs) :
  (accessRestriction toLowerCase session l = None ->
   checkShareLink Date_parse toLowerCase session l nowMs = LinkExpired)
  /\ (access_type l = anyone ->
      checkShareLink Date_parse toLowerCase session l nowMs = LinkExpired)
  /\ (access_type l = restricted ->
      truthy (sessionEmail session) = false ->
      checkShareLink Date_parse toLowerCase session l nowMs = LoginRequired)
  /\ (forall e, access_type l = restricted ->
      sessionEmail session = Some e -> e <> "" ->
      checkShareLink Date_parse toLowerCase session l nowMs
      = if includes (allowedList l) (toLowerCase e) then LinkExpired
        else AccessDenied (toLowerCase e)).
Proof.
  assert (Hexp : expiration Date_parse l nowMs = LinkExpired).
  { rewrite (expiration_past l nowMs s t Hset Hne Hdate).
    destruct (Z.ltb_spec t nowMs); [reflexivity | lia]. }
  unfold checkShareLink. repeat split.
  - intros H. rewrite H. exact Hexp.
  - intros H. rewrite (access_anyone session l H). exact Hexp.
  - intros H He. rewrite (access_no_email session l H He). reflexivity.
  - intros e H He Hn. rewrite (access_email session l e H He Hn).
    destruct (includes _ _); [exact Hexp | reflexivity].
Qed.

(** C4, amended. For a restricted link and a requester with an
    email, the access check passes if and only if the lowercased
    form of the requester's email is, exactly as spelled, an entry
    of [allowed_emails]; otherwise the verdict is the access denial
    naming the lowercased email. The letter case of the requester's
    email does not matter: two emails with the same lowercased form get
    the same verdict. The stored entries are compared as they are: an
    entry that lowercasing changes, such as one with an uppercase
    letter, matches no requester, and a list of such entries admits
    nobody. Lowercasing a lowercased string changes nothing, which is
    what [Hidem] records. *)
Theorem restricted_access_iff_lowercase_listed (session : option Session)
    (l : ShareLink) (e : string) (nowMs : Z)
    (Hidem : forall s, toLowerCase (toLowerCase s) = toLowerCase s)
    (Hre : access_type l = restricted)
    (Hemail : sessionEmail session = Some e) (Hne : e <> "") :
  (accessRestriction toLowerCase session l = None
   <-> In (toLowerCase e) (allowedList l))
  /\ (In (toLowerCase e) (allowedList l) ->
      checkShareLink Date_parse toLowerCase session l nowMs
      = expiration Date_parse l nowMs)
  /\ (~ In (toLowerCase e) (allowedList l) ->
      checkShareLink Date_parse toLowerCase session l nowMs
      = AccessDenied (toLowerCase e))
  /\ (forall e', e' <> "" -> toLowerCase e' = toLowerCase e ->
      checkShareLink Date_parse toLowerCase (signedIn e') l nowMs
      = checkShareLink Date_parse toLowerCase session l nowMs)
  /\ (forall entry, toLowerCase entry <> entry -> toLowerCase e <> entry)
  /\ ((forall entry, In entry (allowedList l) -> toLowerCase entry <> entry) ->
      checkShareLink Date_parse toLowerCase session l nowMs
      = AccessDenied (toLowerCase e)).
Proof.
  pose proof (access_email session l e Hre Hemail Hne) as Hacc.
  pose proof (includes_In (allowedList l) (toLowerCase e)) as Hin.
  assert (Hdenied : ~ In (toLowerCase e) (allowedList l) ->
                    checkShareLink Date_parse toLowerCase session l nowMs
                    = AccessDenied (toLowerCase e)).
  { intros H. unfold checkShareLink. rewrite Hacc.
    destruct (includes (allowedList l) (toLowerCase e)) eqn:Hinc;
      [| reflexivity].
    exfalso. apply H. apply Hin. reflexivity. }
  assert (Hchanged : forall entry,
            toLowerCase entry <> entry -> toLowerCase e <> entry).
  { intros entry Hentry Heq. apply Hentry.
    rewrite <- Heq. apply Hidem. }
  split; [| split; [| split; [exact Hdenied | split; [| split]]]].
  - split.
    + intros H. rewrite Hacc in H. apply Hin.
      destruct (includes _ _); [reflexivity | discriminate].
    + intros H. rewrite Hacc. apply Hin in H. rewrite H. reflexivity.
  - intros H. unfold checkShareLink. rewrite Hacc.
    apply Hin in H. rewrite H. reflexivity.
  - intros e' Hne' Hlow. unfold checkShareLink.
    rewrite (access_email (signedIn e') l e' Hre eq_refl Hne'), Hacc, Hlow.
    reflexivity.
  - exact Hchanged.
  - intros Hall. apply Hdenied. intros Hlisted.
    apply (Hchanged (toLowerCase e) (Hall _ Hlisted)). reflexivity.
Qed.

(** C10. A restricted link whose [allowed_emails] is null admits no
    requester: without an email the verdict is the login demand, with
    any email it is the access denial, so verification returns false
    whatever the session is. *)
Theorem null_allow_list_denies_all (b : Backend)
    (groupId token : option string) (l : ShareLink) (st : State)
    (Hre : access_type l = restricted) (Hnull : allowed_emails l = None)
    (Hs : supabase b = true) (Hg : truthy groupId = true)
    (Ht : truthy token = true)
    (Hrow : select_shared_link b (text groupId) (text token)
            = mkResponse (Some l) None) :
  checkShareLink Date_parse toLowerCase (getSession b) l (now b)
  = (if truthy (sessionEmail (getSession b))
     then AccessDenied (toLowerCase (text (sessionEmail (getSession b))))
     else LoginRequired)
  /\ verdict Date_parse toLowerCase b groupId token <> LinkValid
  /\ fst (fst (verifyShareLink Date_parse toLowerCase b groupId token st)) = false.
Proof.
  assert (Hc : checkShareLink Date_parse toLowerCase (getSession b) l (now b)
               = (if truthy (sessionEmail (getSession b))
                  then AccessDenied
                         (toLowerCase (text (sessionEmail (getSession b))))
                  else LoginRequired)).
  { unfold checkShareLink, accessRestriction. rewrite Hre, Hnull.
    destruct (truthy (sessionEmail (getSession b))); reflexivity. }
  pose proof (verdict_of_row b groupId token l Hs Hg Ht Hrow) as Hv.
  split; [exact Hc |].
  rewrite verify_returns, Hv, Hc.
  destruct (truthy (sessionEmail (getSession b)));
    split; (discriminate || reflexivity).
Qed.

(** *** The initial load *)

Lemma verify_calls_no_register (b : Backend)
    (groupId token : option string) (st : State) :
  existsb isRegisterView
    (snd (verifyShareLink Date_parse toLowerCase b groupId token st)) = false.
Proof.
  unfold verifyShareLink.
  destruct (verdict Date_parse toLowerCase b groupId token); reflexivity.
Qed.

Lemma verdictMessage_truthy (v : Verdict) (m : string) :
  verdictMessage v = Some m -> truthy (Some m) = true.
Proof.
  destruct v; simpl; intros H; inversion H; reflexivity.
Qed.

Lemma verify_failure (b : Backend) (groupId token : option string)
    (st : State) :
  fst (fst (verifyShareLink Date_parse toLowerCase b groupId token st)) = false ->
  exists m,
    snd (fst (verifyShareLink Date_parse toLowerCase b groupId token st))
    = setError (Some m) st
    /\ truthy (Some m) = true.
Proof.
  unfold verifyShareLink.
  destruct (verdictMessage (verdict Date_parse toLowerCase b groupId token))
    as [m |] eqn:Hm; simpl; intros H; [| discriminate].
  exists m. split; [reflexivity |].
  exact (verdictMessage_truthy _ m Hm).
Qed.

Lemma render_error (st : State) (m : string) :
  error st = Some m -> truthy (Some m) = true ->
  render st = ErrorScreen m (wasDeleted st).
Proof.
  intros He Ht. unfold render. rewrite He, Ht. reflexivity.
Qed.

Lemma guard_is_invalid_parameters (b : Backend)
    (groupId token : option string) :
  negb (supabase b) || negb (truthy groupId) || negb (truthy token) = true ->
  verdict Date_parse toLowerCase b groupId token = InvalidParameters.
Proof. intros H. unfold verdict. rewrite H. reflexivity. Qed.

(** The periodic verification never calls the view procedure. *)
Lemma periodicCheck_no_register (b : Backend)
    (groupId token : option string) (mounted : bool) (st : State) :
  existsb isRegisterView
    (snd (periodicCheck Date_parse toLowerCase b groupId token mounted st)) = false.
Proof.
  unfold periodicCheck.
  pose proof (verify_calls_no_register b groupId token st) as H.
  destruct (verifyShareLink Date_parse toLowerCase b groupId token st)
    as [[isStillValid st1] calls1].
  simpl in H. destruct (negb isStillValid && mounted); exact H.
Qed.

(** C6. In [loadSharedGroup] the view procedure
    [handle_share_link_view] is called only when [verifyShareLink]
    has returned true, and then directly after the calls of the
    verification. When the verification returns false the procedure
    is not called, the error is set, the group is left as it was,
    and the component renders the error screen. *)
Theorem register_view_only_after_validation (b : Backend)
    (groupId token : option string) (unmountDuring : option nat)
    (st : State) :
  let result := loadSharedGroup Date_parse toLowerCase b groupId token unmountDuring st in
  let verified := verifyShareLink Date_parse toLowerCase b groupId token st in
  (existsb isRegisterView (snd result) = true ->
   fst (fst verified) = true
   /\ exists rest,
        snd result
        = (snd verified
             ++ CallHandleShareLinkView (text groupId) (text token)
             :: rest)%list)
  /\ (fst (fst verified) = false ->
      existsb isRegisterView (snd result) = false
      /\ truthy (error (fst result)) = true
      /\ group (fst result) = group st
      /\ exists m, render (fst result) = ErrorScreen m (wasDeleted st)).
Proof.
  cbv zeta. unfold loadSharedGroup.
  destruct (negb (supabase b) || negb (truthy groupId)
            || negb (truthy token)) eqn:Hguard.
  - split; [simpl; discriminate |].
    intros _. simpl. repeat split.
    exists msgInvalidParameters. reflexivity.
  - pose proof (verify_calls_no_register b groupId token st) as Hnone.
    pose proof (verify_failure b groupId token st) as Hfail.
    destruct (verifyShareLink Date_parse toLowerCase b groupId token st)
      as [[isValid st1] calls1].
    simpl in Hnone, Hfail. simpl fst. simpl snd.
    destruct isValid; simpl negb; simpl orb.
    + split; [| discriminate].
      destruct (mountedAfter unmountDuring 1); simpl negb; cbv iota.
      * intros _. split; [reflexivity |].
        destruct (resp_error (handle_share_link_view b _ _));
          [eexists; reflexivity |].
        destruct (match resp_data (handle_share_link_view b _ _) with
                  | Some d => link d
                  | None => None
                  end); [| eexists; reflexivity].
        destruct (resp_error (select_group b _)); simpl snd;
          rewrite <- ?app_assoc; eexists; reflexivity.
      * simpl snd. rewrite Hnone. discriminate.
    + split; [simpl snd; rewrite Hnone; discriminate |].
      intros _. destruct (Hfail eq_refl) as (m & -> & Hm).
      simpl snd. simpl fst. split; [exact Hnone |].
      assert (He : error (finallyLoad (mountedAfter unmountDuring 1)
                            (setError (Some m) st)) = Some m)
        by (unfold finallyLoad; destruct (mountedAfter _ _); reflexivity).
      assert (Hw : wasDeleted (finallyLoad (mountedAfter unmountDuring 1)
                                 (setError (Some m) st)) = wasDeleted st)
        by (unfold finallyLoad; destruct (mountedAfter _ _); reflexivity).
      split; [rewrite He; exact Hm |].
      split; [unfold finallyLoad; destruct (mountedAfter _ _); reflexivity |].
      exists m. rewrite <- Hw. apply render_error; assumption.
Qed.

End WithDate.

(** *** The realtime deletion handler *)

(** C7. On a deletion event the handler asks the backend for the
    link row and for nothing else, whatever the payload says. If the
    query succeeds and finds no row, the view enters the deleted error
    state; if the query fails or finds the row, the state stays as it
    was. *)
Theorem deletion_event_rechecks_row (payload : string) (b : Backend)
    (groupId : option string) (st : State)
    (Hmon : monitoring b groupId st = true) :
  let linkId := text (option_map id (shareLink st)) in
  let answer := select_link_id b linkId in
  let result := onLinkDeleted payload b groupId st in
  snd result = [CallSelectLinkId linkId]
  /\ (resp_error answer = None -> resp_data answer = None ->
      wasDeleted (fst result) = true
      /\ error (fst result) = Some msgDeleted
      /\ group (fst result) = None
      /\ render (fst result) = ErrorScreen msgDeleted true)
  /\ (resp_error answer <> None \/ resp_data answer <> None ->
      fst result = st)
  /\ (wasDeleted st = false ->
      (wasDeleted (fst result) = true
       <-> resp_error answer = None /\ resp_data answer = None)).
Proof.
  cbv zeta. unfold onLinkDeleted, validateLinkExists.
  unfold monitoring in Hmon.
  apply andb_prop in Hmon. destruct Hmon as [Hmon Hid].
  apply andb_prop in Hmon. destruct Hmon as [Hs Hg].
  rewrite Hs, Hg, Hid. simpl negb. simpl orb. cbv iota.
  destruct (resp_error (select_link_id b _)) as [e |];
    destruct (resp_data (select_link_id b _)) as [d |]; simpl;
    (split; [reflexivity |]);
    (split; [intros H1 H2; try discriminate; repeat split; reflexivity |]);
    (split; [intros [H | H]; try reflexivity; exfalso; apply H; reflexivity |]);
    intros Hw; (split; [intros H; try (rewrite Hw in H; discriminate);
                        split; reflexivity
                       | intros [H1 H2]; try discriminate; reflexivity]).
Qed.

(** C1, counterexample. A restricted link that expired a millisecond
    ago is answered with the login demand for a requester without an
    email, and with the access denial for one who is not listed. *)
Lemma expired_restricted_link_is_denied_first :
  let l := sampleLink restricted (Some newYear2024)
             (Some ["alice@example.com"]) in
  let nowMs := newYear2024Ms + 1 in
  expires_at l = Some newYear2024
  /\ sampleDate newYear2024 = Num newYear2024Ms
  /\ newYear2024Ms <= nowMs
  /\ checkShareLink sampleDate sampleLowerCase None l nowMs = LoginRequired
  /\ checkShareLink sampleDate sampleLowerCase (signedIn "bob@example.com") l nowMs
     = AccessDenied "bob@example.com"
  /\ checkShareLink sampleDate sampleLowerCase None l nowMs <> LinkExpired
  /\ checkShareLink sampleDate sampleLowerCase (signedIn "bob@example.com") l nowMs
     <> LinkExpired.
Proof.
  cbv zeta. repeat split; try reflexivity; discriminate.
Qed.

Lemma expired_once_access_passes_witness :
  let l := sampleLink anyone (Some newYear2024) None in
  checkShareLink sampleDate sampleLowerCase None l (newYear2024Ms + 1) = LinkExpired.
Proof.
  cbv zeta.
  apply (expired_once_access_passes sampleDate sampleLowerCase None
           (sampleLink anyone (Some newYear2024) None)
           (newYear2024Ms + 1) newYear2024 newYear2024Ms).
  - reflexivity.
  - discriminate.
  - reflexivity.
  - unfold newYear2024Ms. lia.
  - reflexivity.
Defined.

(** C4, counterexample. The stored entry "Alice@Example.com" and the
    requester's email "alice@example.com" differ in letter case only,
    and the requester is denied. *)
Lemma capitalised_entry_never_matches :
  let l := sampleLink restricted None (Some ["Alice@Example.com"]) in
  sampleLowerCase "Alice@Example.com" = sampleLowerCase "alice@example.com"
  /\ accessRestriction sampleLowerCase (signedIn "alice@example.com") l
     = Some (AccessDenied "alice@example.com")
  /\ checkShareLink sampleDate sampleLowerCase (signedIn "alice@example.com") l 0
     = AccessDenied "alice@example.com"
  /\ checkShareLink sampleDate sampleLowerCase (signedIn "Alice@Example.com") l 0
     = AccessDenied "alice@example.com".
Proof. cbv zeta. repeat split; reflexivity. Qed.

Lemma restricted_access_iff_lowercase_listed_witness :
  let l := sampleLink restricted None (Some ["alice@example.com"]) in
  (forall s, sampleLowerCase (sampleLowerCase s) = sampleLowerCase s)
  /\ checkShareLink sampleDate sampleLowerCase
       (signedIn "ALICE@Example.com") l 0
     = expiration sampleDate l 0
  /\ checkShareLink sampleDate sampleLowerCase
       (signedIn "ALICE@Example.com") l 0 = LinkValid
  /\ sampleLowerCase "ALICE@Example.com" <> "Alice@example.com".
Proof.
  cbv zeta. split; [exact sampleLowerCase_idempotent |].
  assert (Hne : "ALICE@Example.com" <> "") by discriminate.
  destruct (restricted_access_iff_lowercase_listed sampleDate sampleLowerCase
              (signedIn "ALICE@Example.com")
              (sampleLink restricted None (Some ["alice@example.com"]))
              "ALICE@Example.com" 0 sampleLowerCase_idempotent
              eq_refl eq_refl Hne)
    as (_ & Hlisted & _ & _ & Hchanged & _).
  split; [apply Hlisted; simpl; left; reflexivity |].
  split; [reflexivity |].
  apply Hchanged. discriminate.
Defined.

Lemma null_allow_list_denies_all_witness :
  let l := sampleLink restricted None None in
  let b := sampleBackend (signedIn "alice@example.com") (Some l) 0 in
  verdict sampleDate sampleLowerCase b (Some "group-1") (Some "tok") <> LinkValid
  /\ fst (fst (verifyShareLink sampleDate sampleLowerCase b (Some "group-1") (Some "tok")
                 initialState)) = false.
Proof.
  cbv zeta.
  apply (null_allow_list_denies_all sampleDate sampleLowerCase
           (sampleBackend (signedIn "alice@example.com")
              (Some (sampleLink restricted None None)) 0)
           (Some "group-1") (Some "tok")
           (sampleLink restricted None None) initialState);
    reflexivity.
Defined.

(** C5, the boundary instant. With [now] equal to [expires_at] the
    verification still answers valid, while the countdown of the same
    component reports the link as expired at that instant. *)
Theorem boundary_instant_still_valid :
  let l := sampleLink anyone (Some newYear2024) None in
  let b := sampleBackend None (Some l) newYear2024Ms in
  sampleDate newYear2024 = Num (now b)
  /\ checkShareLink sampleDate sampleLowerCase None l newYear2024Ms = LinkValid
  /\ fst (fst (verifyShareLink sampleDate sampleLowerCase b (Some "group-1") (Some "tok")
                 initialState)) = true
  /\ option_map error
       (updateTimer sampleDate newYear2024Ms
          (setShareLink (Some l) initialState)) = Some (Some msgExpired).
Proof. cbv zeta. repeat split; reflexivity. Qed.

Lemma register_view_only_after_validation_witness :
  let b := sampleBackend None (Some (sampleLink restricted None None)) 0 in
  let result :=
    loadSharedGroup sampleDate sampleLowerCase b (Some "group-1") (Some "tok") None
      initialState in
  fst (fst (verifyShareLink sampleDate sampleLowerCase b (Some "group-1") (Some "tok")
              initialState)) = false
  /\ existsb isRegisterView (snd result) = false
  /\ truthy (error (fst result)) = true
  /\ group (fst result) = None.
Proof.
  cbv zeta. split; [reflexivity |].
  pose proof (register_view_only_after_validation sampleDate sampleLowerCase
                (sampleBackend None (Some (sampleLink restricted None None)) 0)
                (Some "group-1") (Some "tok") None initialState) as H.
  cbv zeta in H. destruct H as [_ H].
  destruct (H eq_refl) as (H1 & H2 & H3 & _).
  repeat split; assumption.
Defined.

Lemma deletion_event_rechecks_row_witness :
  let b := sampleBackend None None 0 in
  let st := setShareLink (Some (sampleLink anyone None None)) initialState in
  let result := onLinkDeleted "DELETE" b (Some "group-1") st in
  monitoring b (Some "group-1") st = true
  /\ snd result = [CallSelectLinkId "link-1"]
  /\ render (fst result) = ErrorScreen msgDeleted true.
Proof.
  cbv zeta. split; [reflexivity |].
  pose proof (deletion_event_rechecks_row "DELETE"
                (sampleBackend None None 0) (Some "group-1")
                (setShareLink (Some (sampleLink anyone None None))
                   initialState) eq_refl) as H.
  cbv zeta in H. destruct H as (Hcalls & Habsent & _).
  split; [exact Hcalls |].
  destruct (Habsent eq_refl eq_refl) as (_ & _ & _ & Hscreen).
  exact Hscreen.
Defined.

End SharedGroupViewFacts.

(** ** Facts about TOTPDisplay *)

Module TOTPDisplayFacts.

Import Js TOTPDisplay.

(** *** The newest suspended call *)

Lemma nth_error_last {A : Type} (l : list A) (x : A) :
  nth_error (l ++ [x]) (List.length l) = Some x.
Proof. induction l as [| z rest IH]; simpl; [reflexivity | exact IH]. Qed.

Lemma replaceAt_last {A : Type} (l : list A) (x y : A) :
  replaceAt (List.length l) y (l ++ [x]) = (l ++ [y])%list.
Proof.
  induction l as [| z rest IH]; simpl; [reflexivity | rewrite IH; reflexivity].
Qed.

Lemma removeAt_last {A : Type} (l : list A) (x : A) :
  removeAt (List.length l) (l ++ [x]) = l.
Proof.
  induction l as [| z rest IH]; simpl; [reflexivity | rewrite IH; reflexivity].
Qed.

Section Effect.

Variables secret modelId : string.

Local Abbreviation step := (step secret modelId).
Local Abbreviation run := (run secret modelId).
Local Abbreviation updateCode := (updateCode secret).

(** Once the flag is down, a callback changes neither the display
    nor the flag, and calls nothing. *)
Lemma step_inactive (e : Event) (w : World) :
  isActive w = false ->
  isActive (step e w) = false
  /\ display (step e w) = display w
  /\ calls (step e w) = calls w.
Proof.
  intros Hoff. destruct e as [remaining | | i r | i r |]; simpl.
  - unfold updateTimer. rewrite Hoff.
    destruct (timerInterval w); simpl; auto.
  - unfold forceUpdate. rewrite Hoff.
    destruct (forceUpdateInterval w); simpl; auto.
  - destruct (nth_error (pending w) i) as [[| c] |]; auto.
    unfold resumeGenerated, catchUpdate.
    destruct r; simpl; rewrite Hoff; simpl; auto.
  - destruct (nth_error (pending w) i) as [[| c] |]; auto.
    unfold resumePersisted, catchUpdate.
    destruct r; simpl; rewrite Hoff; simpl; auto.
  - auto.
Qed.

Lemma run_inactive (events : list Event) (w : World) :
  isActive w = false ->
  isActive (run events w) = false
  /\ display (run events w) = display w
  /\ calls (run events w) = calls w.
Proof.
  revert w. induction events as [| e rest IH]; intros w Hoff; simpl.
  - auto.
  - destruct (step_inactive e w Hoff) as (Hoff' & Hd & Hc).
    destruct (IH (step e w) Hoff') as (H1 & H2 & H3).
    rewrite H2, H3, Hd, Hc. auto.
Qed.

(** C2. After the cleanup has run, no callback changes the
    displayed code, the error flag or the remaining time, whatever
    is still pending and whatever settles or fires later; a pending
    persist or generate call that settles afterwards runs to its end
    and leaves the display as it was. *)
Theorem no_mutation_after_deactivation (w : World) (events : list Event) :
  display (run events (cleanup w)) = display w
  /\ code (display (run events (cleanup w))) = code (display w)
  /\ updateError (display (run events (cleanup w)))
     = updateError (display w)
  /\ timeRemaining (display (run events (cleanup w)))
     = timeRemaining (display w)
  /\ calls (run events (cleanup w)) = calls w
  /\ (forall i newCode r,
        nth_error (pending w) i = Some (AwaitPersist newCode) ->
        display (step (PersistSettles i r) (cleanup w)) = display w
        /\ pending (step (PersistSettles i r) (cleanup w))
           = removeAt i (pending w))
  /\ (forall i r,
        nth_error (pending w) i = Some AwaitGenerate ->
        display (step (GenerateSettles i r) (cleanup w)) = display w
        /\ pending (step (GenerateSettles i r) (cleanup w))
           = removeAt i (pending w)).
Proof.
  destruct (run_inactive events (cleanup w) eq_refl) as (_ & Hd & Hc).
  simpl in Hd, Hc.
  rewrite Hd. do 5 (split; [first [reflexivity | exact Hc] |]).
  split.
  - intros i newCode r Hp. simpl. rewrite Hp.
    destruct r as [[|] |]; split; reflexivity.
  - intros i r Hp. simpl. rewrite Hp.
    destruct r; split; reflexivity.
Qed.

(** *** Persistence failures *)

(** When [updateModelCode] answers false, the generated code stays
    on display, the error flag goes up, and the loop keeps running:
    the flag and both intervals are as before and nothing new is
    scheduled. *)
Lemma persist_refused_keeps_code (w : World) (i : nat) (newCode : string) :
  isActive w = true ->
  nth_error (pending w) i = Some (AwaitPersist newCode) ->
  let w' := step (PersistSettles i (Resolved false)) w in
  code (display w') = code (display w)
  /\ updateError (display w') = true
  /\ isActive w' = true
  /\ timerInterval w' = timerInterval w
  /\ forceUpdateInterval w' = forceUpdateInterval w
  /\ pending w' = removeAt i (pending w)
  /\ calls w' = calls w.
Proof.
  intros Hon Hp. simpl. rewrite Hp. unfold resumePersisted. simpl.
  rewrite Hon. simpl. repeat split; assumption.
Qed.

(** After [generateTOTP] resolves, the code is displayed and
    [updateModelCode] is called with it. *)
Lemma generated_code_is_displayed (w : World) (i : nat) (newCode : string) :
  isActive w = true ->
  nth_error (pending w) i = Some AwaitGenerate ->
  let w' := step (GenerateSettles i (Resolved newCode)) w in
  code (display w') = newCode
  /\ nth_error (pending w') i = Some (AwaitPersist newCode)
  /\ calls w' = (calls w ++ [CallUpdateModelCode modelId newCode])%list.
Proof.
  intros Hon Hp. simpl. rewrite Hp. unfold resumeGenerated.
  rewrite Hon. simpl. repeat split.
  clear Hon. revert i Hp.
  induction (pending w) as [| x rest IH]; intros [| i] Hp;
    simpl in *; try discriminate; try reflexivity.
  apply IH. exact Hp.
Qed.

(** The next regeneration is the scheduled one: the force interval
    starts a new cycle with a call of [generateTOTP]. *)
Lemma force_interval_regenerates (w : World) :
  isActive w = true -> forceUpdateInterval w = true ->
  pending (step ForceFires w) = (pending w ++ [AwaitGenerate])%list
  /\ calls (step ForceFires w) = (calls w ++ [CallGenerateTOTP secret])%list
  /\ display (step ForceFires w) = display w.
Proof.
  intros Hon Hf. simpl. rewrite Hf. unfold forceUpdate, TOTPDisplay.updateCode.
  rewrite Hon. simpl. repeat split.
Qed.

(** *** The one-second tick *)

Lemma app_one_neq {A : Type} (l : list A) (x : A) : (l ++ [x])%list <> l.
Proof.
  intros H. apply (f_equal (@List.length A)) in H.
  rewrite List.length_app in H. simpl in H. lia.
Qed.

(** C9. While the effect is active, a tick of the one-second timer
    stores the remaining time, and it starts a regeneration if and only
    if the remaining time is exactly 30 or exactly 0. The regeneration
    is a call of [updateCode]: [generateTOTP] is called, and once it
    resolves the new code is displayed and passed to [updateModelCode],
    whose answer sets the error flag. For every other value the tick
    changes the remaining time and nothing else: no call is made and
    nothing is left pending. *)
Theorem tick_regenerates_at_30_or_0 (w : World) (remaining : Z)
    (Hon : isActive w = true) (Htimer : timerInterval w = true) :
  let w' := step (TimerFires remaining) w in
  timeRemaining (display w') = remaining
  /\ (remaining = 30 \/ remaining = 0 ->
      w' = updateCode (setTimeRemaining remaining w)
      /\ pending w' = (pending w ++ [AwaitGenerate])%list
      /\ calls w' = (calls w ++ [CallGenerateTOTP secret])%list)
  /\ (remaining <> 30 -> remaining <> 0 ->
      w' = setTimeRemaining remaining w)
  /\ (pending w' <> pending w <-> remaining = 30 \/ remaining = 0)
  /\ (remaining = 30 \/ remaining = 0 ->
      forall (newCode : string) (updated : bool),
        let n := List.length (pending w) in
        let generated := step (GenerateSettles n (Resolved newCode)) w' in
        let persisted := step (PersistSettles n (Resolved updated)) generated in
        code (display generated) = newCode
        /\ calls generated
           = (calls w ++ [CallGenerateTOTP secret;
                          CallUpdateModelCode modelId newCode])%list
        /\ pending generated = (pending w ++ [AwaitPersist newCode])%list
        /\ code (display persisted) = newCode
        /\ updateError (display persisted) = negb updated
        /\ timeRemaining (display persisted) = remaining
        /\ pending persisted = pending w
        /\ calls persisted = calls generated)
  /\ (remaining <> 30 -> remaining <> 0 ->
      calls w' = calls w /\ pending w' = pending w
      /\ code (display w') = code (display w)
      /\ updateError (display w') = updateError (display w)).
Proof.
  cbv zeta. destruct w as [d on timer force ps cs]. simpl in Hon, Htimer.
  subst on timer. simpl. unfold updateTimer. simpl.
  destruct (Z.eqb_spec remaining 30) as [H30 | H30];
    [| destruct (Z.eqb_spec remaining 0) as [H0 | H0]]; simpl.
  - unfold TOTPDisplay.updateCode. simpl.
    split; [reflexivity |].
    split; [intros _; repeat split |].
    split; [intros H; contradiction |].
    split; [split; [intros _; left; exact H30 | intros _; apply app_one_neq] |].
    split; [| intros H; contradiction].
    intros _ newCode updated. rewrite nth_error_last.
    unfold resumeGenerated. simpl.
    rewrite replaceAt_last, nth_error_last.
    unfold resumePersisted. simpl. rewrite removeAt_last.
    destruct updated; simpl; repeat split;
      rewrite <- List.app_assoc; reflexivity.
  - unfold TOTPDisplay.updateCode. simpl.
    split; [reflexivity |].
    split; [intros _; repeat split |].
    split; [intros _ H; contradiction |].
    split; [split; [intros _; right; exact H0 | intros _; apply app_one_neq] |].
    split; [| intros _ H; contradiction].
    intros _ newCode updated. rewrite nth_error_last.
    unfold resumeGenerated. simpl.
    rewrite replaceAt_last, nth_error_last.
    unfold resumePersisted. simpl. rewrite removeAt_last.
    destruct updated; simpl; repeat split;
      rewrite <- List.app_assoc; reflexivity.
  - split; [reflexivity |].
    split; [intros [H | H]; contradiction |].
    split; [intros _ _; reflexivity |].
    split; [split; [intros H; exfalso; apply H; reflexivity
                   | intros [H | H]; contradiction] |].
    split; [intros [H | H]; contradiction |].
    intros _ _. repeat split.
Qed.

End Effect.

Lemma sampleStart_is_effect_start :
  runEffect (Some sampleSecret) sampleModel 17 initialDisplay
  = Some sampleStart.
Proof. reflexivity. Qed.

(** C3, the thrown case. The effect starts, [generateTOTP] resolves
    with "123456", which is displayed and passed to [updateModelCode];
    that call is rejected. The error flag goes up and the loop stays
    armed, but the display now reads "Error" in place of the generated
    code. *)
Theorem persist_rejection_replaces_code :
  let w1 :=
    step sampleSecret sampleModel (GenerateSettles 0 (Resolved "123456"))
      sampleStart in
  let w2 :=
    step sampleSecret sampleModel (PersistSettles 0 (Rejected "network"))
      w1 in
  runEffect (Some sampleSecret) sampleModel 17 initialDisplay
  = Some sampleStart
  /\ code (display w1) = "123456"
  /\ calls w1 = [CallGenerateTOTP sampleSecret;
                 CallUpdateModelCode sampleModel "123456"]
  /\ code (display w2) = "Error"
  /\ updateError (display w2) = true
  /\ isActive w2 = true
  /\ timerInterval w2 = true
  /\ forceUpdateInterval w2 = true
  /\ pending w2 = [].
Proof. cbv zeta. repeat split; reflexivity. Qed.

Lemma tick_regenerates_at_30_or_0_witness :
  let w' := step sampleSecret sampleModel (TimerFires 0) sampleStart in
  let generated :=
    step sampleSecret sampleModel (GenerateSettles 1 (Resolved "654321")) w' in
  isActive sampleStart = true
  /\ timerInterval sampleStart = true
  /\ timeRemaining (display w') = 0
  /\ pending w' = [AwaitGenerate; AwaitGenerate]
  /\ code (display generated) = "654321"
  /\ calls generated
     = [CallGenerateTOTP sampleSecret; CallGenerateTOTP sampleSecret;
        CallUpdateModelCode sampleModel "654321"].
Proof.
  cbv zeta. split; [reflexivity |]. split; [reflexivity |].
  pose proof (tick_regenerates_at_30_or_0 sampleSecret sampleModel
                sampleStart 0 eq_refl eq_refl) as H.
  cbv zeta in H. destruct H as (Htime & Hstart & _ & _ & Hcycle & _).
  split; [exact Htime |].
  destruct (Hstart (or_intror eq_refl)) as (_ & Hp & _).
  split; [exact Hp |].
  destruct (Hcycle (or_intror eq_refl) "654321" true)
    as (Hcode & Hcalls & _).
  split; [exact Hcode | exact Hcalls].
Defined.

End TOTPDisplayFacts.

(** ** Further behaviour of SharedGroupView *)

Module SharedGroupViewBehaviour.

Import Js SharedGroupView SharedGroupViewLoop SharedGroupViewFacts.

(** *** The countdown text off the claimed range *)

(** X1. The countdown text only looks at whole seconds; from one hour
    on it only looks at whole minutes, and from one day on only at whole
    hours: the text is the same for the input rounded down to that
    unit. *)
Theorem formatTimeRemaining_granularity (ms : Z) :
  formatTimeRemaining ms = formatTimeRemaining (1000 * (ms / 1000))
  /\ (3600000 <= ms ->
      formatTimeRemaining ms = formatTimeRemaining (60000 * (ms / 60000)))
  /\ (86400000 <= ms ->
      formatTimeRemaining ms = formatTimeRemaining (3600000 * (ms / 3600000))).
Proof.
  split; [| split].
  - unfold formatTimeRemaining.
    replace (1000 * (ms / 1000) / 1000) with (ms / 1000)
      by (Z.div_mod_to_equations; lia).
    reflexivity.
  - intros Hhour. unfold formatTimeRemaining. cbv zeta.
    assert (Hmin : 60000 * (ms / 60000) / 1000 / 60 = ms / 1000 / 60)
      by (Z.div_mod_to_equations; lia).
    rewrite Hmin.
    destruct (0 <? ms / 1000 / 60 / 60 / 24)%Z; [reflexivity |].
    destruct (Z.ltb_spec 0 (ms / 1000 / 60 / 60)) as [_ | Hno];
      [reflexivity |].
    exfalso. Z.div_mod_to_equations. lia.
  - intros Hday. unfold formatTimeRemaining. cbv zeta.
    assert (Hh : 3600000 * (ms / 3600000) / 1000 / 60 / 60
                 = ms / 1000 / 60 / 60)
      by (Z.div_mod_to_equations; lia).
    rewrite Hh.
    destruct (Z.ltb_spec 0 (ms / 1000 / 60 / 60 / 24)) as [_ | Hno];
      [reflexivity |].
    exfalso. Z.div_mod_to_equations. lia.
Qed.

Lemma formatTimeRemaining_granularity_witness :
  3600000 <= 3661999
  /\ formatTimeRemaining 3661999 = formatTimeRemaining 3660000.
Proof.
  split; [lia |].
  destruct (formatTimeRemaining_granularity 3661999) as (_ & Hmin & _).
  exact (Hmin ltac:(lia)).
Defined.

(** X2. For a negative input the text is the number of seconds,
    rounded down and with its sign, followed by "s": no larger unit is
    ever used. *)
Theorem formatTimeRemaining_negative (ms : Z) (Hneg : ms < 0) :
  formatTimeRemaining ms = numberToString (ms / 1000) ++ "s"
  /\ ms / 1000 < 0.
Proof.
  split; [| Z.div_mod_to_equations; lia].
  unfold formatTimeRemaining. cbv zeta.
  destruct (Z.ltb_spec 0 (ms / 1000 / 60 / 60 / 24)) as [Hd | _];
    [exfalso; Z.div_mod_to_equations; lia |].
  destruct (Z.ltb_spec 0 (ms / 1000 / 60 / 60)) as [Hh | _];
    [exfalso; Z.div_mod_to_equations; lia |].
  destruct (Z.ltb_spec 0 (ms / 1000 / 60)) as [Hm | _];
    [exfalso; Z.div_mod_to_equations; lia |].
  reflexivity.
Qed.

Lemma formatTimeRemaining_negative_witness :
  -1 < 0 /\ formatTimeRemaining (-1) = "-1s".
Proof.
  split; [lia |].
  exact (proj1 (formatTimeRemaining_negative (-1) ltac:(lia))).
Defined.

(** *** The countdown tick *)

Section WithDate.

Variable Date_parse : string -> number.

(** X3. A countdown tick on a link with a valid expiry date: at or
    after the expiry it stores 0 and sets the expiry error; before it,
    it stores the milliseconds left, leaves the error alone and raises
    the warning exactly when fewer than five minutes (300000 ms) are
    left. The group, the link, the code and the deletion flag are never
    touched. *)
Theorem countdown_tick_outcome (st : State) (l : ShareLink) (s : string)
    (t nowMs : Z)
    (Hlink : shareLink st = Some l) (Hset : expires_at l = Some s)
    (Hne : s <> "") (Hdate : Date_parse s = Num t) :
  exists st',
    updateTimer Date_parse nowMs st = Some st'
    /\ (t <= nowMs ->
        linkTimeRemaining st' = Some (Num 0)
        /\ error st' = Some msgExpired
        /\ isNearingExpiry st' = isNearingExpiry st)
    /\ (nowMs < t ->
        linkTimeRemaining st' = Some (Num (t - nowMs))
        /\ error st' = error st
        /\ (isNearingExpiry st' = true <-> t - nowMs < 300000))
    /\ group st' = group st
    /\ shareLink st' = shareLink st
    /\ latestCode st' = latestCode st
    /\ wasDeleted st' = wasDeleted st
    /\ loading st' = loading st.
Proof.
  unfold updateTimer.
  rewrite Hlink, Hset, (truthy_Some s Hne). simpl. rewrite Hdate. simpl.
  destruct (Z.leb_spec (t - nowMs) 0) as [Hle | Hgt]; simpl;
    eexists; (split; [reflexivity |]); simpl.
  - split; [intros _; repeat split |].
    split; [intros Hlt; exfalso; lia |].
    repeat split; exact Hlink.
  - split; [intros Hle; exfalso; lia |].
    split; [intros _ | repeat split; exact Hlink].
    split; [reflexivity |]. split; [reflexivity |].
    change (1000 * 60) with 60000.
    rewrite Z.ltb_lt. split; intros H; Z.div_mod_to_equations; lia.
Qed.

Variable toLowerCase : string -> string.

(** X4. A link whose [expires_at] is not a date never expires: the
    expiry check of the verification passes at every time, and the
    countdown tick throws before any setter runs, so that it never sets
    the expiry error, the remaining time or the warning. In the loop of
    callbacks such a tick leaves the state as it was. *)
Theorem unparseable_expiry_never_expires (st : State) (l : ShareLink)
    (s : string) (nowMs : Z) (b : Backend) (groupId token : option string)
    (Hlink : shareLink st = Some l) (Hset : expires_at l = Some s)
    (Hne : s <> "") (Hdate : Date_parse s = NaN) :
  expiration Date_parse l nowMs = LinkValid
  /\ (access_type l = anyone ->
      checkShareLink Date_parse toLowerCase None l nowMs = LinkValid)
  /\ updateTimer Date_parse nowMs st = None
  /\ fire Date_parse toLowerCase groupId token b CountdownTick st = st.
Proof.
  assert (Hexp : expiration Date_parse l nowMs = LinkValid).
  { unfold expiration. rewrite Hset, (truthy_Some s Hne). simpl.
    rewrite Hdate. reflexivity. }
  assert (Htick : forall n, updateTimer Date_parse n st = None).
  { intros n. unfold updateTimer.
    rewrite Hlink, Hset, (truthy_Some s Hne). simpl.
    rewrite Hdate. reflexivity. }
  split; [exact Hexp |]. split; [| split].
  - intros Hany. unfold checkShareLink.
    rewrite (access_anyone toLowerCase None l Hany). exact Hexp.
  - apply Htick.
  - simpl. rewrite Htick. reflexivity.
Qed.

(** The verification never reads the one-time flag or the view
    counter: a link gets the same verdict whatever these two fields
    hold, so a one-time link that was already viewed still passes. *)
Lemma verification_ignores_one_time_view (session : option Session)
    (l : ShareLink) (nowMs : Z) (oneTime : bool) (views : Z) :
  checkShareLink Date_parse toLowerCase session (withViews oneTime views l) nowMs
  = checkShareLink Date_parse toLowerCase session l nowMs.
Proof. reflexivity. Qed.

End WithDate.

Lemma countdown_tick_outcome_witness :
  let l := sampleLink anyone (Some newYear2024) None in
  let st := setShareLink (Some l) initialState in
  exists st',
    updateTimer sampleDate (newYear2024Ms - 299999) st = Some st'
    /\ linkTimeRemaining st' = Some (Num 299999)
    /\ isNearingExpiry st' = true.
Proof.
  cbv zeta.
  assert (Hne : newYear2024 <> "") by discriminate.
  destruct (countdown_tick_outcome sampleDate
              (setShareLink (Some (sampleLink anyone (Some newYear2024) None))
                 initialState)
              (sampleLink anyone (Some newYear2024) None)
              newYear2024 newYear2024Ms (newYear2024Ms - 299999)
              eq_refl eq_refl Hne eq_refl)
    as (st' & Htick & _ & Hbefore & _).
  destruct (Hbefore ltac:(unfold newYear2024Ms; lia)) as (Hleft & _ & Hwarn).
  exists st'. split; [exact Htick |]. split.
  - rewrite Hleft. reflexivity.
  - apply Hwarn. unfold newYear2024Ms. lia.
Defined.

Lemma unparseable_expiry_never_expires_witness :
  let l := sampleLink anyone (Some "soon") None in
  let st := setShareLink (Some l) initialState in
  sampleDate "soon" = NaN
  /\ checkShareLink sampleDate sampleLowerCase None l 0 = LinkValid
  /\ updateTimer sampleDate 0 st = None.
Proof.
  cbv zeta. split; [reflexivity |].
  assert (Hne : "soon" <> "") by discriminate.
  destruct (unparseable_expiry_never_expires sampleDate sampleLowerCase
              (setShareLink (Some (sampleLink anyone (Some "soon") None))
                 initialState)
              (sampleLink anyone (Some "soon") None) "soon" 0
              (sampleBackend None None 0) None None
              eq_refl eq_refl Hne eq_refl) as (_ & Hvalid & Hthrow & _).
  split; [exact (Hvalid eq_refl) | exact Hthrow].
Defined.

(** *** Verification and the initial load *)

Section Load.

Variable Date_parse : string -> number.
Variable toLowerCase : string -> string.

Lemma valid_passes_guard (b : Backend) (groupId token : option string) :
  verdict Date_parse toLowerCase b groupId token = LinkValid ->
  negb (supabase b) || negb (truthy groupId) || negb (truthy token) = false.
Proof.
  unfold verdict.
  destruct (negb (supabase b) || negb (truthy groupId) || negb (truthy token));
    [discriminate | reflexivity].
Qed.

Lemma verify_valid (b : Backend) (groupId token : option string)
    (st : State) :
  verdict Date_parse toLowerCase b groupId token = LinkValid ->
  verifyShareLink Date_parse toLowerCase b groupId token st
  = (true, st,
     [CallGetSession; CallSelectSharedLink (text groupId) (text token)]).
Proof. intros H. unfold verifyShareLink. rewrite H. reflexivity. Qed.

Lemma messageOr_truthy (message : string) :
  truthy (Some (if message =? "" then msgLoadFailed else message)) = true.
Proof.
  destruct (message =? "") eqn:He; [reflexivity |].
  simpl. rewrite He. reflexivity.
Qed.

(** X5. The verification changes nothing but the error: it returns
    true without touching the state, and so never clears an earlier
    error, or it returns false after setting a non-empty error. It makes
    at most two calls, both reads. *)
Theorem verification_only_sets_error (b : Backend)
    (groupId token : option string) (st : State) :
  let r := verifyShareLink Date_parse toLowerCase b groupId token st in
  let st' := snd (fst r) in
  (fst (fst r) = true -> st' = st)
  /\ (fst (fst r) = false -> truthy (error st') = true)
  /\ loading st' = loading st
  /\ group st' = group st
  /\ latestCode st' = latestCode st
  /\ shareLink st' = shareLink st
  /\ linkTimeRemaining st' = linkTimeRemaining st
  /\ isNearingExpiry st' = isNearingExpiry st
  /\ wasDeleted st' = wasDeleted st
  /\ (forall c, In c (snd r) ->
      c = CallGetSession
      \/ c = CallSelectSharedLink (text groupId) (text token)).
Proof.
  cbv zeta.
  pose proof (verify_failure Date_parse toLowerCase b groupId token st) as Hfail.
  unfold verifyShareLink in *.
  destruct (verdict Date_parse toLowerCase b groupId token); simpl in *;
    (split; [intros H; first [reflexivity | discriminate] |]);
    (split; [intros H; first [discriminate | reflexivity] |]);
    repeat (split; [reflexivity |]);
    intros c Hc; simpl in Hc;
    first [contradiction | destruct Hc as [<- | [<- | []]]; auto].
Qed.

(** X6. A load in which everything succeeds and the page stays
    mounted makes the five calls in order, stores the link the view
    procedure returned and the group, ends the loading phase and shows
    the group, unless an error was set before. A failing code query
    leaves the code as it was; an empty one clears it. *)
Theorem load_shows_group (b : Backend) (groupId token : option string)
    (st : State) (l : ShareLink) (g : SharedGroup)
    (Hvalid : verdict Date_parse toLowerCase b groupId token = LinkValid)
    (Hview : handle_share_link_view b (text groupId) (text token)
             = mkResponse (Some (mkViewData (Some l))) None)
    (Hgroup : select_group b (text groupId) = mkResponse (Some g) None) :
  let r := loadSharedGroup Date_parse toLowerCase b groupId token None st in
  snd r = fullLoadCalls groupId token
  /\ shareLink (fst r) = Some l
  /\ group (fst r) = Some g
  /\ loading (fst r) = false
  /\ error (fst r) = error st
  /\ latestCode (fst r)
     = match resp_error (select_latest_codes b (text groupId)) with
       | Some _ => latestCode st
       | None =>
           match resp_data (select_latest_codes b (text groupId)) with
           | Some (c :: _) => Some c
           | _ => None
           end
       end
  /\ (truthy (error st) = false ->
      exists codeText status, render (fst r) = ReadyScreen g codeText status).
Proof.
  cbv zeta. unfold loadSharedGroup.
  rewrite (valid_passes_guard b groupId token Hvalid).
  rewrite (verify_valid b groupId token st Hvalid).
  simpl. rewrite Hview. simpl. rewrite Hgroup. simpl.
  destruct (resp_error (select_latest_codes b (text groupId))); simpl;
    repeat (split; [reflexivity |]);
    intros Herr; unfold render; simpl; rewrite Herr;
    eexists; eexists; reflexivity.
Qed.

(** X7. Whatever the backend answers and whenever the page is
    unmounted, the calls of a load are an initial part of the same five
    calls in the same order; in particular the view procedure is called
    at most once per load. *)
Theorem load_calls_in_order (b : Backend) (groupId token : option string)
    (unmountDuring : option nat) (st : State) :
  let calls :=
    snd (loadSharedGroup Date_parse toLowerCase b groupId token unmountDuring st) in
  (exists rest, fullLoadCalls groupId token = (calls ++ rest)%list)
  /\ (List.length (List.filter isRegisterView calls) <= 1)%nat.
Proof.
  cbv zeta.
  assert (Hprefix :
    exists rest,
      fullLoadCalls groupId token
      = (snd (loadSharedGroup Date_parse toLowerCase b groupId token unmountDuring st)
           ++ rest)%list).
  { unfold loadSharedGroup, verifyShareLink, fullLoadCalls.
    destruct (negb (supabase b) || negb (truthy groupId)
              || negb (truthy token)); [eexists; reflexivity |].
    destruct (verdict Date_parse toLowerCase b groupId token); simpl;
      try (eexists; reflexivity).
    destruct (mountedAfter unmountDuring 1); simpl;
      [| eexists; reflexivity].
    destruct (resp_error (handle_share_link_view b _ _));
      [eexists; reflexivity |].
    destruct (match resp_data (handle_share_link_view b _ _) with
              | Some d => link d
              | None => None
              end); [| eexists; reflexivity].
    destruct (resp_error (select_group b _)); eexists; reflexivity. }
  split; [exact Hprefix |].
  destruct Hprefix as [rest Hrest].
  apply (f_equal (fun cs => List.length (List.filter isRegisterView cs)))
    in Hrest.
  rewrite List.filter_app, List.length_app in Hrest.
  simpl in Hrest. lia.
Qed.

(** X8. When the view procedure answers with an error, or with no
    link (the link is gone or its single view is used up), the load
    stops there: no group or code query is sent, the group, the link
    and the code in the state stay as they were, and while the page is
    mounted the error is the procedure's message, "Failed to load
    shared group" if that is empty, or "Share link not found or already
    used", and the loading phase ends. *)
Theorem view_procedure_failure (b : Backend) (groupId token : option string)
    (unmountDuring : option nat) (st : State) (message : string)
    (Hvalid : verdict Date_parse toLowerCase b groupId token = LinkValid)
    (Hm1 : mountedAfter unmountDuring 1 = true)
    (Hview :
       resp_error (handle_share_link_view b (text groupId) (text token))
       = Some message
       \/ (resp_error (handle_share_link_view b (text groupId) (text token))
           = None
           /\ match
                resp_data (handle_share_link_view b (text groupId) (text token))
              with
              | Some d => link d
              | None => None
              end = None
           /\ message = msgAlreadyUsed)) :
  let r := loadSharedGroup Date_parse toLowerCase b groupId token unmountDuring st in
  snd r = [CallGetSession;
           CallSelectSharedLink (text groupId) (text token);
           CallHandleShareLinkView (text groupId) (text token)]
  /\ group (fst r) = group st
  /\ shareLink (fst r) = shareLink st
  /\ latestCode (fst r) = latestCode st
  /\ (mountedAfter unmountDuring 2 = true ->
      error (fst r)
      = Some (if message =? "" then msgLoadFailed else message)
      /\ loading (fst r) = false)
  /\ (mountedAfter unmountDuring 2 = false -> fst r = st).
Proof.
  cbv zeta. unfold loadSharedGroup.
  rewrite (valid_passes_guard b groupId token Hvalid).
  rewrite (verify_valid b groupId token st Hvalid).
  simpl. rewrite Hm1. simpl.
  destruct Hview as [Herr | (Herr & Hnone & ->)]; rewrite Herr;
    [| rewrite Hnone];
    unfold catchLoad, finallyLoad;
    destruct (mountedAfter unmountDuring 2); simpl;
    repeat (split; [reflexivity |]);
    (split; [intros H; first [discriminate | split; reflexivity]
            | intros H; first [discriminate | reflexivity]]).
Qed.

(** X9. When the group query fails after the view procedure
    succeeded, the view has been registered all the same, so a one-time
    link is used up, and the link is stored, but no code query is sent,
    no group is stored, and the error is the query's message. *)
Theorem group_query_failure (b : Backend) (groupId token : option string)
    (st : State) (l : ShareLink) (message : string)
    (Hvalid : verdict Date_parse toLowerCase b groupId token = LinkValid)
    (Hview : handle_share_link_view b (text groupId) (text token)
             = mkResponse (Some (mkViewData (Some l))) None)
    (Hgroup : resp_error (select_group b (text groupId)) = Some message) :
  let r := loadSharedGroup Date_parse toLowerCase b groupId token None st in
  snd r = [CallGetSession;
           CallSelectSharedLink (text groupId) (text token);
           CallHandleShareLinkView (text groupId) (text token);
           CallSelectGroup (text groupId)]
  /\ shareLink (fst r) = Some l
  /\ group (fst r) = group st
  /\ latestCode (fst r) = latestCode st
  /\ loading (fst r) = false
  /\ error (fst r) = Some (if message =? "" then msgLoadFailed else message)
  /\ exists m, render (fst r) = ErrorScreen m (wasDeleted st).
Proof.
  cbv zeta. unfold loadSharedGroup.
  rewrite (valid_passes_guard b groupId token Hvalid).
  rewrite (verify_valid b groupId token st Hvalid).
  simpl. rewrite Hview. simpl. rewrite Hgroup. simpl.
  repeat (split; [reflexivity |]).
  exists (if message =? "" then msgLoadFailed else message).
  erewrite render_error;
    [reflexivity | reflexivity | apply messageOr_truthy].
Qed.

(** X10. When the page is unmounted while the verification is
    pending, the load ends with the verification: the view procedure is
    not called, so a one-time link is not used up, and the state is the
    one the verification left. *)
Theorem unmount_during_verification (b : Backend)
    (groupId token : option string) (unmountDuring : option nat)
    (st : State)
    (Hs : supabase b = true) (Hg : truthy groupId = true)
    (Ht : truthy token = true)
    (Hgone : mountedAfter unmountDuring 1 = false) :
  let r := loadSharedGroup Date_parse toLowerCase b groupId token unmountDuring st in
  let v := verifyShareLink Date_parse toLowerCase b groupId token st in
  r = (snd (fst v), snd v)
  /\ existsb isRegisterView (snd r) = false.
Proof.
  cbv zeta. unfold loadSharedGroup. rewrite Hs, Hg, Ht. simpl.
  pose proof (verify_calls_no_register Date_parse toLowerCase b groupId token st) as Hno.
  destruct (verifyShareLink Date_parse toLowerCase b groupId token st)
    as [[isValid st1] calls1].
  rewrite Hgone. simpl in *.
  rewrite Bool.orb_true_r. simpl. split; [reflexivity | exact Hno].
Qed.

(** X11. A periodic verification that fails while the page is mounted
    replaces the verification's own message by "This share link is no
    longer valid", drops the group and leads to the error screen; one
    that succeeds changes nothing. It never calls the view procedure
    (see [periodicCheck_no_register]). *)
Theorem periodic_failure_drops_group (b : Backend)
    (groupId token : option string) (st : State) :
  let v := verifyShareLink Date_parse toLowerCase b groupId token st in
  let r := periodicCheck Date_parse toLowerCase b groupId token true st in
  (fst (fst v) = false ->
   error (fst r) = Some msgNoLongerValid
   /\ group (fst r) = None
   /\ render (fst r) = ErrorScreen msgNoLongerValid (wasDeleted st))
  /\ (fst (fst v) = true -> fst r = st)
  /\ snd r = snd v.
Proof.
  cbv zeta. unfold periodicCheck.
  pose proof (verification_only_sets_error b groupId token st) as Hv.
  cbv zeta in Hv.
  destruct (verifyShareLink Date_parse toLowerCase b groupId token st)
    as [[isStillValid st1] calls1].
  simpl in *. destruct Hv as (Htrue & _ & _ & _ & _ & _ & _ & _ & Hw & _).
  destruct isStillValid; simpl.
  - split; [discriminate |]. split; [exact Htrue | reflexivity].
  - split; [| split; [discriminate | reflexivity]].
    intros _. split; [reflexivity |]. split; [reflexivity |].
    unfold render. simpl. rewrite Hw. reflexivity.
Qed.

End Load.

(** *** The error state is terminal *)

Section Terminal.

Variable Date_parse : string -> number.
Variable toLowerCase : string -> string.
Variables groupId token : option string.

Ltac load_cases unmountDuring :=
  unfold catchLoad, finallyLoad;
  repeat match goal with
    | |- context [mountedAfter unmountDuring ?k] =>
        destruct (mountedAfter unmountDuring k)
    | |- context [resp_error ?r] => destruct (resp_error r) as [? |]
    | |- context [match resp_data ?r with _ => _ end] =>
        destruct (resp_data r) as [? |]
    | |- context [link ?d] => destruct (link d) as [? |]
    | |- context [match ?cs with [] => _ | _ :: _ => _ end] =>
        destruct cs as [| ? ?]
    end;
  cbn [fst error wasDeleted setLoading setError setShareLink setLatestCode
       setGroup].

Lemma load_keeps_error (b : Backend) (unmountDuring : option nat)
    (st : State) :
  truthy (error st) = true ->
  truthy (error (fst (loadSharedGroup Date_parse toLowerCase b groupId token
                        unmountDuring st))) = true.
Proof.
  intros H. unfold loadSharedGroup.
  destruct (negb (supabase b) || negb (truthy groupId) || negb (truthy token));
    [reflexivity |].
  pose proof (verification_only_sets_error Date_parse toLowerCase b groupId token st)
    as Hv.
  cbv zeta in Hv.
  destruct (verifyShareLink Date_parse toLowerCase b groupId token st)
    as [[isValid st1] calls1].
  simpl in Hv. destruct Hv as (Htrue & Hfalse & _).
  assert (H1 : truthy (error st1) = true).
  { destruct isValid; [rewrite (Htrue eq_refl); exact H | exact (Hfalse eq_refl)]. }
  clear Htrue Hfalse.
  destruct isValid; cbn [negb orb];
    load_cases unmountDuring;
    first [exact H1 | apply messageOr_truthy | reflexivity].
Qed.

Lemma load_keeps_deleted (b : Backend) (unmountDuring : option nat)
    (st : State) :
  wasDeleted (fst (loadSharedGroup Date_parse toLowerCase b groupId token
                     unmountDuring st)) = wasDeleted st.
Proof.
  unfold loadSharedGroup.
  destruct (negb (supabase b) || negb (truthy groupId) || negb (truthy token));
    [reflexivity |].
  pose proof (verification_only_sets_error Date_parse toLowerCase b groupId token st)
    as Hv.
  cbv zeta in Hv.
  destruct (verifyShareLink Date_parse toLowerCase b groupId token st)
    as [[isValid st1] calls1].
  simpl in Hv. destruct Hv as (_ & _ & _ & _ & _ & _ & _ & _ & Hw & _).
  destruct isValid; cbn [negb orb];
    load_cases unmountDuring; exact Hw.
Qed.

Lemma fire_keeps_error (b : Backend) (c : Callback) (st : State) :
  truthy (error st) = true ->
  truthy (error (fire Date_parse toLowerCase groupId token b c st)) = true.
Proof.
  intros H. destruct c as [u | m | payload | | |]; simpl.
  - apply load_keeps_error. exact H.
  - unfold periodicCheck.
    pose proof (verification_only_sets_error Date_parse toLowerCase b groupId token st)
      as Hv.
    cbv zeta in Hv.
    destruct (verifyShareLink Date_parse toLowerCase b groupId token st)
      as [[isValid st1] calls1].
    simpl in Hv. destruct Hv as (Htrue & Hfalse & _).
    destruct isValid; simpl.
    + rewrite (Htrue eq_refl). exact H.
    + destruct m; simpl; [reflexivity | exact (Hfalse eq_refl)].
  - unfold onLinkDeleted, validateLinkExists.
    destruct (monitoring b groupId st); [| exact H].
    destruct (negb (supabase b) || negb (truthy groupId)
              || negb (truthy (option_map id (shareLink st)))); [exact H |].
    destruct (resp_error (select_link_id b _)); [exact H |].
    destruct (resp_data (select_link_id b _)); [exact H | reflexivity].
  - unfold validateLinkExists.
    destruct (monitoring b groupId st); [| exact H].
    destruct (negb (supabase b) || negb (truthy groupId)
              || negb (truthy (option_map id (shareLink st)))); [exact H |].
    destruct (resp_error (select_link_id b _)); [exact H |].
    destruct (resp_data (select_link_id b _)); [exact H | reflexivity].
  - unfold onCodeInserted.
    destruct (monitoring b groupId st); [| exact H].
    destruct (resp_data (select_latest_codes b _)) as [[| c cs] |];
      exact H.
  - unfold updateTimer.
    destruct (shareLink st) as [l |]; [| exact H].
    destruct (negb (truthy (expires_at l))); [exact H |].
    destruct (Date_parse (text (expires_at l))) as [| expiry]; [exact H |].
    destruct (le _ _); [reflexivity | exact H].
Qed.

Lemma fire_keeps_deleted (b : Backend) (c : Callback) (st : State) :
  wasDeleted st = true ->
  wasDeleted (fire Date_parse toLowerCase groupId token b c st) = true.
Proof.
  intros H. destruct c as [u | m | payload | | |]; simpl.
  - rewrite load_keeps_deleted. exact H.
  - unfold periodicCheck.
    pose proof (verification_only_sets_error Date_parse toLowerCase b groupId token st)
      as Hv.
    cbv zeta in Hv.
    destruct (verifyShareLink Date_parse toLowerCase b groupId token st)
      as [[isValid st1] calls1].
    simpl in Hv. destruct Hv as (_ & _ & _ & _ & _ & _ & _ & _ & Hw & _).
    destruct (negb isValid && m); simpl; rewrite Hw; exact H.
  - unfold onLinkDeleted, validateLinkExists.
    destruct (monitoring b groupId st); [| exact H].
    destruct (negb (supabase b) || negb (truthy groupId)
              || negb (truthy (option_map id (shareLink st)))); [exact H |].
    destruct (resp_error (select_link_id b _)); [exact H |].
    destruct (resp_data (select_link_id b _)); [exact H | reflexivity].
  - unfold validateLinkExists.
    destruct (monitoring b groupId st); [| exact H].
    destruct (negb (supabase b) || negb (truthy groupId)
              || negb (truthy (option_map id (shareLink st)))); [exact H |].
    destruct (resp_error (select_link_id b _)); [exact H |].
    destruct (resp_data (select_link_id b _)); [exact H | reflexivity].
  - unfold onCodeInserted.
    destruct (monitoring b groupId st); [| exact H].
    destruct (resp_data (select_latest_codes b _)) as [[| c cs] |];
      exact H.
  - unfold updateTimer.
    destruct (shareLink st) as [l |]; [| exact H].
    destruct (negb (truthy (expires_at l))); [exact H |].
    destruct (Date_parse (text (expires_at l))) as [| expiry]; [exact H |].
    destruct (le _ _); exact H.
Qed.

(** X13. The error state is terminal. Once an error is set, no
    callback of the component clears it, whatever the backend answers
    later: after any sequence of loads, periodic verifications,
    realtime events, polls and countdown ticks the component still
    renders the error screen and never the group. A detected deletion
    is never taken back either. *)
Theorem error_screen_is_terminal (events : list (Backend * Callback))
    (st : State) (Herr : truthy (error st) = true) :
  let st' := fireAll Date_parse toLowerCase groupId token events st in
  truthy (error st') = true
  /\ render st' = ErrorScreen (text (error st')) (wasDeleted st')
  /\ (wasDeleted st = true -> wasDeleted st' = true).
Proof.
  cbv zeta. revert st Herr.
  induction events as [| [b c] rest IH]; intros st Herr; simpl.
  - split; [exact Herr |]. split; [| intros H; exact H].
    unfold render. rewrite Herr. reflexivity.
  - destruct (IH (fire Date_parse toLowerCase groupId token b c st)
                (fire_keeps_error b c st Herr)) as (He & Hr & Hd).
    split; [exact He |]. split; [exact Hr |].
    intros H. apply Hd. apply fire_keeps_deleted. exact H.
Qed.

End Terminal.

(** X12. The existence check is idempotent against the same backend:
    running it again on the state it produced gives that state and the
    same query again. Without a stored link, or without a group id, it
    sends no query and changes nothing. *)
Theorem existence_check_idempotent (b : Backend) (groupId : option string)
    (st : State) :
  let once := validateLinkExists b groupId st in
  validateLinkExists b groupId (fst once) = once
  /\ (shareLink st = None \/ truthy groupId = false -> once = (st, [])).
Proof.
  cbv zeta. unfold validateLinkExists. split.
  - destruct (negb (supabase b) || negb (truthy groupId)
              || negb (truthy (option_map id (shareLink st)))) eqn:Hguard.
    + simpl. rewrite Hguard. reflexivity.
    + destruct (resp_error (select_link_id b _)) eqn:He.
      * simpl. rewrite Hguard, He. reflexivity.
      * destruct (resp_data (select_link_id b _)) eqn:Hd.
        -- simpl. rewrite Hguard, He, Hd. reflexivity.
        -- simpl. rewrite Hguard, He, Hd. reflexivity.
  - intros [Hnone | Hnog].
    + rewrite Hnone. simpl. rewrite !Bool.orb_true_r. reflexivity.
    + rewrite Hnog. simpl. rewrite Bool.orb_true_r. reflexivity.
Qed.

Lemma load_shows_group_witness :
  let b := sampleBackend None (Some publicLink) 0 in
  let r :=
    loadSharedGroup sampleDate sampleLowerCase b (Some "group-1") (Some "tok") None
      initialState in
  verdict sampleDate sampleLowerCase b (Some "group-1") (Some "tok") = LinkValid
  /\ snd r = fullLoadCalls (Some "group-1") (Some "tok")
  /\ group (fst r) = Some sampleGroup
  /\ exists codeText status,
       render (fst r) = ReadyScreen sampleGroup codeText status.
Proof.
  cbv zeta. split; [reflexivity |].
  pose proof (load_shows_group sampleDate sampleLowerCase
                (sampleBackend None (Some publicLink) 0)
                (Some "group-1") (Some "tok") initialState
                publicLink sampleGroup eq_refl eq_refl eq_refl) as H.
  cbv zeta in H. destruct H as (Hcalls & _ & Hgroup & _ & _ & _ & Hready).
  split; [exact Hcalls |]. split; [exact Hgroup |].
  exact (Hready eq_refl).
Defined.

Lemma view_procedure_failure_witness :
  let b :=
    sampleBackendWith publicLink (mkResponse (Some (mkViewData None)) None)
      (mkResponse (Some sampleGroup) None) in
  let r :=
    loadSharedGroup sampleDate sampleLowerCase b (Some "group-1") (Some "tok") None
      initialState in
  verdict sampleDate sampleLowerCase b (Some "group-1") (Some "tok") = LinkValid
  /\ error (fst r) = Some msgAlreadyUsed
  /\ group (fst r) = None.
Proof.
  cbv zeta. split; [reflexivity |].
  pose proof (view_procedure_failure sampleDate sampleLowerCase
                (sampleBackendWith publicLink
                   (mkResponse (Some (mkViewData None)) None)
                   (mkResponse (Some sampleGroup) None))
                (Some "group-1") (Some "tok") None initialState
                msgAlreadyUsed eq_refl eq_refl
                (or_intror (conj eq_refl (conj eq_refl eq_refl)))) as H.
  cbv zeta in H. destruct H as (_ & Hgroup & _ & _ & Hmounted & _).
  destruct (Hmounted eq_refl) as (Herr & _).
  split; [exact Herr | exact Hgroup].
Defined.

Lemma group_query_failure_witness :
  let b :=
    sampleBackendWith publicLink
      (mkResponse (Some (mkViewData (Some publicLink))) None)
      (mkResponse None (Some "permission denied")) in
  let r :=
    loadSharedGroup sampleDate sampleLowerCase b (Some "group-1") (Some "tok") None
      initialState in
  existsb isRegisterView (snd r) = true
  /\ shareLink (fst r) = Some publicLink
  /\ group (fst r) = None
  /\ error (fst r) = Some "permission denied".
Proof.
  cbv zeta.
  pose proof (group_query_failure sampleDate sampleLowerCase
                (sampleBackendWith publicLink
                   (mkResponse (Some (mkViewData (Some publicLink))) None)
                   (mkResponse None (Some "permission denied")))
                (Some "group-1") (Some "tok") initialState
                publicLink "permission denied" eq_refl eq_refl eq_refl) as H.
  cbv zeta in H. destruct H as (Hcalls & Hlink & Hgroup & _ & _ & Herr & _).
  split; [rewrite Hcalls; reflexivity |].
  split; [exact Hlink |]. split; [exact Hgroup | exact Herr].
Defined.

Lemma unmount_during_verification_witness :
  let b := sampleBackend None (Some publicLink) 0 in
  let r :=
    loadSharedGroup sampleDate sampleLowerCase b (Some "group-1") (Some "tok") (Some 1%nat)
      initialState in
  mountedAfter (Some 1%nat) 1 = false
  /\ fst r = initialState
  /\ existsb isRegisterView (snd r) = false.
Proof.
  cbv zeta. split; [reflexivity |].
  pose proof (unmount_during_verification sampleDate sampleLowerCase
                (sampleBackend None (Some publicLink) 0)
                (Some "group-1") (Some "tok") (Some 1%nat) initialState
                eq_refl eq_refl eq_refl eq_refl) as H.
  cbv zeta in H. destruct H as (Hr & Hno).
  split; [rewrite Hr; reflexivity | exact Hno].
Defined.

Lemma error_screen_is_terminal_witness :
  let b := sampleBackend None (Some publicLink) 0 in
  let st := setError (Some msgExpired) initialState in
  let st' :=
    fireAll sampleDate sampleLowerCase (Some "group-1") (Some "tok")
      [(b, InitialLoad None); (b, PeriodicVerification true)] st in
  truthy (error st) = true
  /\ group st' = Some sampleGroup
  /\ render st' = ErrorScreen msgExpired false.
Proof.
  cbv zeta. split; [reflexivity |]. split; [reflexivity |].
  pose proof (error_screen_is_terminal sampleDate sampleLowerCase (Some "group-1")
                (Some "tok")
                [(sampleBackend None (Some publicLink) 0, InitialLoad None);
                 (sampleBackend None (Some publicLink) 0,
                  PeriodicVerification true)]
                (setError (Some msgExpired) initialState) eq_refl) as H.
  cbv zeta in H. destruct H as (_ & Hr & _).
  rewrite Hr. reflexivity.
Defined.

Lemma periodic_failure_drops_group_witness :
  let b := sampleBackend None None 0 in
  let st := setGroup (Some sampleGroup) (setLoading false initialState) in
  fst (fst (verifyShareLink sampleDate sampleLowerCase b (Some "group-1") (Some "tok") st))
  = false
  /\ render (fst (periodicCheck sampleDate sampleLowerCase b (Some "group-1") (Some "tok")
                    true st))
     = ErrorScreen msgNoLongerValid false.
Proof.
  cbv zeta. split; [reflexivity |].
  pose proof (periodic_failure_drops_group sampleDate sampleLowerCase
                (sampleBackend None None 0) (Some "group-1") (Some "tok")
                (setGroup (Some sampleGroup) (setLoading false initialState)))
    as H.
  cbv zeta in H. destruct H as (Hfail & _).
  destruct (Hfail eq_refl) as (_ & _ & Hscreen).
  exact Hscreen.
Defined.

End SharedGroupViewBehaviour.

(** ** Further behaviour of TOTPDisplay *)

Module TOTPDisplayBehaviour.

Import Js TOTPDisplay TOTPDisplayCounts TOTPDisplayFacts.

(** *** Lists of suspended calls *)

Lemma count_app_one {A : Type} (f : A -> bool) (l : list A) (x : A) :
  count f (l ++ [x]) = (count f l + (if f x then 1 else 0))%nat.
Proof.
  unfold count. rewrite List.filter_app, List.length_app. simpl.
  destruct (f x); reflexivity.
Qed.

Lemma count_removeAt {A : Type} (f : A -> bool) (l : list A) (i : nat)
    (x : A) :
  nth_error l i = Some x ->
  count f l = (count f (removeAt i l) + (if f x then 1 else 0))%nat.
Proof.
  unfold count. revert i.
  induction l as [| y rest IH]; intros [| i] H; simpl in *;
    try discriminate.
  - inversion H; subst. destruct (f x); simpl; lia.
  - specialize (IH i H). destruct (f y); simpl; lia.
Qed.

Lemma count_replaceAt {A : Type} (f : A -> bool) (l : list A) (i : nat)
    (x y : A) :
  nth_error l i = Some x ->
  (count f (replaceAt i y l) + (if f x then 1 else 0)
   = count f l + (if f y then 1 else 0))%nat.
Proof.
  unfold count. revert i.
  induction l as [| z rest IH]; intros [| i] H; simpl in *;
    try discriminate.
  - inversion H; subst. destruct (f x), (f y); simpl; lia.
  - specialize (IH i H). destruct (f z); simpl; lia.
Qed.

Lemma nth_error_replaceAt_other {A : Type} (l : list A) (i j : nat) (y : A) :
  i <> j -> nth_error (replaceAt j y l) i = nth_error l i.
Proof.
  revert i j. induction l as [| z rest IH]; intros [| i] [| j] H;
    simpl; try reflexivity.
  - contradiction.
  - apply IH. intros ->. apply H. reflexivity.
Qed.

(** X14. Without a secret the effect sets nothing up. With one it
    starts active with both intervals armed, shows the remaining time,
    leaves the code and the error flag as they were, and has asked for a
    first code at once; mounted exactly at a window boundary (30 or 0
    seconds left) it has asked twice. *)
Theorem effect_start (secret : option string) (modelId : string)
    (remaining : Z) (d : Display) :
  (truthy secret = false -> runEffect secret modelId remaining d = None)
  /\ (truthy secret = true ->
      exists w,
        runEffect secret modelId remaining d = Some w
        /\ isActive w = true
        /\ timerInterval w = true
        /\ forceUpdateInterval w = true
        /\ code (display w) = code d
        /\ updateError (display w) = updateError d
        /\ timeRemaining (display w) = remaining
        /\ pending w
           = AwaitGenerate
               :: (if (remaining =? 30)%Z || (remaining =? 0)%Z
                   then [AwaitGenerate] else [])
        /\ count isGenerateCall (calls w) = List.length (pending w)
        /\ count isPersistCall (calls w) = 0%nat).
Proof.
  unfold runEffect. split; intros H; rewrite H; [reflexivity |].
  simpl. eexists. split; [reflexivity |].
  unfold updateTimer, updateCode. simpl.
  destruct ((remaining =? 30)%Z || (remaining =? 0)%Z); simpl;
    repeat split; reflexivity.
Qed.

Section Effect.

Variables secret modelId : string.

Local Abbreviation step := (step secret modelId).
Local Abbreviation run := (run secret modelId).

Lemma step_keeps_armed (e : Event) (w : World) :
  isDeactivate e = false ->
  isActive (step e w) = isActive w
  /\ timerInterval (step e w) = timerInterval w
  /\ forceUpdateInterval (step e w) = forceUpdateInterval w.
Proof.
  intros He. destruct w as [d on timer force ps cs].
  destruct e as [remaining | | i r | i r |]; simpl in *;
    try discriminate.
  - unfold updateTimer, updateCode. simpl.
    destruct timer; [| auto].
    destruct on; simpl; [| auto].
    destruct ((remaining =? 30)%Z || (remaining =? 0)%Z); simpl; auto.
  - unfold forceUpdate, updateCode. simpl.
    destruct force; [| auto].
    destruct on; simpl; auto.
  - destruct (nth_error ps i) as [[| c] |]; auto.
    unfold resumeGenerated, catchUpdate.
    destruct r; simpl; destruct on; simpl; auto.
  - destruct (nth_error ps i) as [[| c] |]; auto.
    unfold resumePersisted, catchUpdate.
    destruct r as [[|] |]; simpl; destruct on; simpl; auto.
Qed.

(** X15. Nothing but the cleanup stops the loop: after any sequence
    of ticks, forced updates and settled promises, failed ones
    included, the effect is still active and both intervals are still
    armed. *)
Theorem loop_survives_failures (events : list Event) (w : World)
    (Hon : isActive w = true) (Htimer : timerInterval w = true)
    (Hforce : forceUpdateInterval w = true)
    (Hstay : existsb isDeactivate events = false) :
  isActive (run events w) = true
  /\ timerInterval (run events w) = true
  /\ forceUpdateInterval (run events w) = true.
Proof.
  revert w Hon Htimer Hforce.
  induction events as [| e rest IH]; intros w Hon Htimer Hforce; simpl.
  - auto.
  - simpl in Hstay. apply Bool.orb_false_iff in Hstay.
    destruct Hstay as [He Hrest].
    destruct (step_keeps_armed e w He) as (H1 & H2 & H3).
    apply (IH Hrest); congruence.
Qed.

Lemma updateCode_balanced (w : World) :
  balanced w -> balanced (updateCode secret w).
Proof.
  unfold balanced, updateCode. intros [H1 H2].
  destruct (isActive w); simpl; [| auto].
  rewrite !count_app_one. simpl. lia.
Qed.

Lemma step_balanced (e : Event) (w : World) :
  balanced w -> balanced (step e w).
Proof.
  intros Hb. destruct e as [remaining | | i r | i r |]; simpl.
  - unfold updateTimer.
    destruct (timerInterval w); [| exact Hb].
    destruct (isActive w); simpl; [| exact Hb].
    destruct ((remaining =? 30)%Z || (remaining =? 0)%Z).
    + apply updateCode_balanced. exact Hb.
    + exact Hb.
  - unfold forceUpdate.
    destruct (forceUpdateInterval w); [| exact Hb].
    destruct (isActive w); simpl; [| exact Hb].
    apply updateCode_balanced. exact Hb.
  - destruct (nth_error (pending w) i) as [[| c] |] eqn:Hp; try exact Hb.
    destruct Hb as [H1 H2].
    pose proof (count_removeAt isAwaitGenerate _ _ _ Hp) as Hg.
    pose proof (count_removeAt isAwaitPersist _ _ _ Hp) as Hq.
    simpl in Hg, Hq.
    unfold balanced, resumeGenerated, catchUpdate.
    destruct r as [newCode | message]; simpl;
      destruct (isActive w); simpl; try lia.
    pose proof (count_replaceAt isAwaitGenerate _ _ _
                  (AwaitPersist newCode) Hp) as Hg'.
    pose proof (count_replaceAt isAwaitPersist _ _ _
                  (AwaitPersist newCode) Hp) as Hq'.
    simpl in Hg', Hq'. rewrite !count_app_one. simpl. lia.
  - destruct (nth_error (pending w) i) as [[| c] |] eqn:Hp; try exact Hb.
    destruct Hb as [H1 H2].
    pose proof (count_removeAt isAwaitGenerate _ _ _ Hp) as Hg.
    pose proof (count_removeAt isAwaitPersist _ _ _ Hp) as Hq.
    simpl in Hg, Hq.
    unfold balanced, resumePersisted, catchUpdate.
    destruct r as [[|] | message]; simpl;
      destruct (isActive w); simpl; lia.
  - exact Hb.
Qed.

Lemma run_balanced (events : list Event) (w : World) :
  balanced w -> balanced (run events w).
Proof.
  revert w. induction events as [| e rest IH]; intros w Hb; simpl.
  - exact Hb.
  - apply IH. apply step_balanced. exact Hb.
Qed.

(** X16. From the start of the effect on, through every run of the
    loop, [updateModelCode] has been called at most as often as
    [generateTOTP] has resolved: the persist calls made plus the
    generations still pending never exceed the generations requested,
    and no more persist calls are pending than were made. *)
Theorem persist_calls_follow_generation (remaining : Z) (d : Display)
    (events : list Event) (w0 : World)
    (Hstart : runEffect (Some secret) modelId remaining d = Some w0) :
  let w := run events w0 in
  (count isPersistCall (calls w) + count isAwaitGenerate (pending w)
   <= count isGenerateCall (calls w))%nat
  /\ (count isAwaitPersist (pending w) <= count isPersistCall (calls w))%nat.
Proof.
  cbv zeta. apply run_balanced.
  destruct (effect_start (Some secret) modelId remaining d) as [Hoff Hon].
  destruct (truthy (Some secret)) eqn:Ht.
  - destruct (Hon eq_refl)
      as (w & Hw & _ & _ & _ & _ & _ & _ & Hp & Hg & Hq).
    rewrite Hstart in Hw. inversion Hw; subst w.
    unfold balanced. rewrite Hg, Hq, Hp.
    destruct ((remaining =? 30)%Z || (remaining =? 0)%Z); simpl;
      unfold count; simpl; lia.
  - rewrite (Hoff eq_refl) in Hstart. discriminate.
Qed.

(** X17. Overlapping cycles are not ordered: when two calls of
    [generateTOTP] are pending and the one started later resolves
    first, the code of the one started earlier, resolving last, is the
    code on display, and it is also the code passed to the last call of
    [updateModelCode]. *)
Theorem last_settled_generation_wins (w : World) (i j : nat)
    (older newer : string)
    (Hon : isActive w = true) (Hij : (i < j)%nat)
    (Hi : nth_error (pending w) i = Some AwaitGenerate)
    (Hj : nth_error (pending w) j = Some AwaitGenerate) :
  let w' :=
    run [GenerateSettles j (Resolved newer);
         GenerateSettles i (Resolved older)] w in
  code (display w') = older
  /\ calls w'
     = (calls w ++ [CallUpdateModelCode modelId newer;
                    CallUpdateModelCode modelId older])%list.
Proof.
  cbv zeta.
  assert (Hfirst :
    step (GenerateSettles j (Resolved newer)) w
    = setPending (replaceAt j (AwaitPersist newer) (pending w))
        (logCall (CallUpdateModelCode modelId newer) (setCode newer w))).
  { simpl. rewrite Hj. unfold resumeGenerated. rewrite Hon. reflexivity. }
  change (run [GenerateSettles j (Resolved newer);
               GenerateSettles i (Resolved older)] w)
    with (step (GenerateSettles i (Resolved older))
            (step (GenerateSettles j (Resolved newer)) w)).
  rewrite Hfirst. simpl.
  rewrite nth_error_replaceAt_other by lia. rewrite Hi.
  unfold resumeGenerated. simpl. rewrite Hon. simpl.
  split; [reflexivity |]. rewrite <- List.app_assoc. reflexivity.
Qed.

(** X18. A complete cycle started by the force interval (the
    generation resolves, then the persist call settles with [updated])
    puts the new code on display and sets the error flag to the
    opposite of [updated], whatever the display showed before: a
    successful cycle clears an earlier "Error" or stale state. The
    remaining time and the other pending calls are untouched. *)
Theorem forced_cycle_outcome (w : World) (newCode : string) (updated : bool)
    (Hon : isActive w = true) (Hforce : forceUpdateInterval w = true) :
  let n := List.length (pending w) in
  let w' :=
    run [ForceFires;
         GenerateSettles n (Resolved newCode);
         PersistSettles n (Resolved updated)] w in
  code (display w') = newCode
  /\ updateError (display w') = negb updated
  /\ timeRemaining (display w') = timeRemaining (display w)
  /\ pending w' = pending w
  /\ calls w'
     = (calls w ++ [CallGenerateTOTP secret;
                    CallUpdateModelCode modelId newCode])%list.
Proof.
  cbv zeta. destruct w as [d on timer force ps cs]. simpl in *. subst.
  unfold forceUpdate, updateCode. simpl.
  rewrite nth_error_last. unfold resumeGenerated. simpl.
  rewrite replaceAt_last, nth_error_last.
  unfold resumePersisted. simpl. rewrite removeAt_last.
  destruct updated; simpl; rewrite <- List.app_assoc; repeat split.
Qed.

Lemma step_calls (e : Event) (w : World) (c : Call) :
  In c (calls (step e w)) ->
  In c (calls w)
  \/ c = CallGenerateTOTP secret
  \/ exists i newCode,
       e = GenerateSettles i (Resolved newCode)
       /\ c = CallUpdateModelCode modelId newCode.
Proof.
  destruct w as [d on timer force ps cs].
  destruct e as [remaining | | i r | i r |]; simpl.
  - unfold updateTimer, updateCode. simpl.
    destruct timer; [| auto]. destruct on; simpl; [| auto].
    destruct ((remaining =? 30)%Z || (remaining =? 0)%Z); simpl; [| auto].
    intros H. apply List.in_app_or in H.
    destruct H as [H | [<- | []]]; auto.
  - unfold forceUpdate, updateCode. simpl.
    destruct force; [| auto]. destruct on; simpl; [| auto].
    intros H. apply List.in_app_or in H.
    destruct H as [H | [<- | []]]; auto.
  - destruct (nth_error ps i) as [[| c'] |]; auto.
    unfold resumeGenerated, catchUpdate.
    destruct r as [newCode | message]; simpl; destruct on; simpl; auto.
    intros H. apply List.in_app_or in H.
    destruct H as [H | [<- | []]]; [auto |].
    right. right. exists i, newCode. split; reflexivity.
  - destruct (nth_error ps i) as [[| c'] |]; auto.
    unfold resumePersisted, catchUpdate.
    destruct r as [[|] | message]; simpl; destruct on; simpl; auto.
  - auto.
Qed.

(** X19. Only generated codes are persisted: every call of
    [updateModelCode] made during a run is for the model of the effect
    and carries a code that [generateTOTP] resolved with during that
    run. In particular the literal "Error" shown after a failure is
    never written to the database, unless [generateTOTP] itself
    resolved with it. *)
Theorem persisted_codes_were_generated (events : list Event) (w : World)
    (model persistedCode : string)
    (Hcall : In (CallUpdateModelCode model persistedCode)
               (calls (run events w))) :
  In (CallUpdateModelCode model persistedCode) (calls w)
  \/ (model = modelId
      /\ exists i, In (GenerateSettles i (Resolved persistedCode)) events).
Proof.
  revert w Hcall.
  induction events as [| e rest IH]; intros w Hcall; simpl in Hcall.
  - left. exact Hcall.
  - destruct (IH (step e w) Hcall) as [Hin | (Hm & i & Hi)].
    + destruct (step_calls e w _ Hin) as [H | [H | (i & c & He & Hc)]].
      * left. exact H.
      * discriminate.
      * inversion Hc; subst. right. split; [reflexivity |].
        exists i. left. reflexivity.
    + right. split; [exact Hm |]. exists i. right. exact Hi.
Qed.

End Effect.

Lemma loop_survives_failures_witness :
  let events :=
    [GenerateSettles 0 (Rejected "bad secret");
     ForceFires;
     GenerateSettles 0 (Resolved "123456");
     PersistSettles 0 (Rejected "network");
     TimerFires 0] in
  existsb isDeactivate events = false
  /\ code (display (run sampleSecret sampleModel events sampleStart)) = "Error"
  /\ isActive (run sampleSecret sampleModel events sampleStart) = true
  /\ timerInterval (run sampleSecret sampleModel events sampleStart) = true.
Proof.
  cbv zeta. split; [reflexivity |]. split; [reflexivity |].
  destruct (loop_survives_failures sampleSecret sampleModel
              [GenerateSettles 0 (Rejected "bad secret");
               ForceFires;
               GenerateSettles 0 (Resolved "123456");
               PersistSettles 0 (Rejected "network");
               TimerFires 0] sampleStart eq_refl eq_refl eq_refl eq_refl)
    as (Hon & Htimer & _).
  split; [exact Hon | exact Htimer].
Defined.

Lemma persist_calls_follow_generation_witness :
  let w :=
    run sampleSecret sampleModel
      [GenerateSettles 0 (Resolved "123456"); ForceFires] sampleStart in
  runEffect (Some sampleSecret) sampleModel 17 initialDisplay
  = Some sampleStart
  /\ (count isPersistCall (calls w) + count isAwaitGenerate (pending w)
      <= count isGenerateCall (calls w))%nat.
Proof.
  cbv zeta. split; [reflexivity |].
  pose proof (persist_calls_follow_generation sampleSecret sampleModel 17
                initialDisplay
                [GenerateSettles 0 (Resolved "123456"); ForceFires]
                sampleStart eq_refl) as H.
  cbv zeta in H. exact (proj1 H).
Defined.

Lemma last_settled_generation_wins_witness :
  let w := step sampleSecret sampleModel ForceFires sampleStart in
  pending w = [AwaitGenerate; AwaitGenerate]
  /\ code (display
             (run sampleSecret sampleModel
                [GenerateSettles 1 (Resolved "222222");
                 GenerateSettles 0 (Resolved "111111")] w)) = "111111".
Proof.
  cbv zeta. split; [reflexivity |].
  pose proof (last_settled_generation_wins sampleSecret sampleModel
                (step sampleSecret sampleModel ForceFires sampleStart)
                0%nat 1%nat "111111" "222222" eq_refl
                (Nat.lt_0_succ 0) eq_refl eq_refl) as H.
  cbv zeta in H. exact (proj1 H).
Defined.

Lemma forced_cycle_outcome_witness :
  let w :=
    run sampleSecret sampleModel
      [GenerateSettles 0 (Rejected "bad secret")] sampleStart in
  code (display w) = "Error"
  /\ updateError (display w) = true
  /\ code (display
             (run sampleSecret sampleModel
                [ForceFires;
                 GenerateSettles 0 (Resolved "123456");
                 PersistSettles 0 (Resolved true)] w)) = "123456"
  /\ updateError
       (display
          (run sampleSecret sampleModel
             [ForceFires;
              GenerateSettles 0 (Resolved "123456");
              PersistSettles 0 (Resolved true)] w)) = false.
Proof.
  cbv zeta. split; [reflexivity |]. split; [reflexivity |].
  pose proof (forced_cycle_outcome sampleSecret sampleModel
                (run sampleSecret sampleModel
                   [GenerateSettles 0 (Rejected "bad secret")] sampleStart)
                "123456" true eq_refl eq_refl) as H.
  cbv zeta in H. destruct H as (Hcode & Hflag & _).
  split; [exact Hcode | exact Hflag].
Defined.

Lemma persisted_codes_were_generated_witness :
  let events :=
    [GenerateSettles 0 (Resolved "123456");
     PersistSettles 0 (Rejected "network")] in
  In (CallUpdateModelCode sampleModel "123456")
    (calls (run sampleSecret sampleModel events sampleStart))
  /\ exists i, In (GenerateSettles i (Resolved "123456")) events.
Proof.
  cbv zeta.
  assert (Hcall :
    In (CallUpdateModelCode sampleModel "123456")
      (calls (run sampleSecret sampleModel
                [GenerateSettles 0 (Resolved "123456");
                 PersistSettles 0 (Rejected "network")] sampleStart))).
  { simpl. right. left. reflexivity. }
  split; [exact Hcall |].
  destruct (persisted_codes_were_generated sampleSecret sampleModel
              [GenerateSettles 0 (Resolved "123456");
               PersistSettles 0 (Rejected "network")] sampleStart
              sampleModel "123456" Hcall) as [Hold | (_ & Hgen)].
  - simpl in Hold. destruct Hold as [Hold | []]. discriminate.
  - exact Hgen.
Defined.

End TOTPDisplayBehaviour.

(** ** Behaviour of AddModelModal *)

Module AddModelModalFacts.

Import Js AddModelModal.

Section WithLength.

Variable length : string -> nat.

Lemma min_passes (n : nat) (message field value : string) :
  min length n message field value = [] <-> (n <= length value)%nat.
Proof.
  unfold min. destruct (Nat.ltb_spec (length value) n) as [Hlt | Hge].
  - split; [discriminate | intros H; exfalso; lia].
  - split; [intros _; exact Hge | reflexivity].
Qed.

Lemma schema_lengths (v : FormValues) :
  formSchema length v = []
  <-> (1 <= length (name v))%nat /\ (1 <= length (username v))%nat
      /\ (6 <= length (code v))%nat.
Proof.
  unfold formSchema.
  rewrite <- (min_passes 1 "Name is required" "name" (name v)).
  rewrite <- (min_passes 1 "Username is required" "username" (username v)).
  rewrite <- (min_passes 6 "Code must be at least 6 characters" "code"
                (code v)).
  split.
  - intros H. apply List.app_eq_nil in H. destruct H as [H1 H].
    apply List.app_eq_nil in H. destruct H as [H2 H3]. auto.
  - intros (H1 & H2 & H3). rewrite H1, H2, H3. reflexivity.
Qed.

(** X20. The schema accepts the values exactly when the name and the
    username are not empty and the code has at least six UTF-16 code
    units; the link plays no part. Only the empty string has length 0,
    which is what [Hempty] records. *)
Theorem schema_accepts_iff (v : FormValues)
    (Hempty : forall s, length s = 0%nat <-> s = "") :
  (formSchema length v = []
   <-> name v <> "" /\ username v <> "" /\ (6 <= length (code v))%nat)
  /\ (forall other,
        formSchema length
          {| name := name v; username := username v; code := code v;
             link := other |}
        = formSchema length v).
Proof.
  assert (Hpos : forall s, (1 <= length s)%nat <-> s <> "").
  { intros s. rewrite <- (Hempty s). lia. }
  split; [| intros other; reflexivity].
  rewrite schema_lengths, !Hpos. reflexivity.
Qed.

(** X21. One submit of the form. With an issue in the values the
    handler is not called: [onSubmit] and [onClose] are not invoked and
    the issues are shown. With valid values [onSubmit] is called once
    with them; if it fails the values stay in the form and the dialog is
    not closed; if it succeeds the form is reset to its defaults and
    [onClose] is called once. *)
Theorem submit_outcomes (r : Settled unit) (m : Modal) :
  let m' := submitForm length r m in
  (formSchema length (values m) <> [] ->
   submitted m' = submitted m
   /\ closed m' = closed m
   /\ values m' = values m
   /\ issues m' = formSchema length (values m))
  /\ (formSchema length (values m) = [] ->
      submitted m' = (submitted m ++ [values m])%list
      /\ issues m' = []
      /\ match r with
         | Resolved _ => values m' = defaultValues /\ closed m' = S (closed m)
         | Rejected _ => values m' = values m /\ closed m' = closed m
         end).
Proof.
  cbv zeta. unfold submitForm.
  destruct (formSchema length (values m)) as [| issue rest] eqn:Hs.
  - split; [intros H; contradiction H; reflexivity |].
    intros _. unfold handleSubmit. destruct r; simpl; repeat split.
  - split; [intros _; repeat split | discriminate].
Qed.

Lemma act_keeps_valid (a : Action) (m : Modal) :
  Forall (fun v => formSchema length v = []) (submitted m) ->
  (closed m <= List.length (submitted m))%nat ->
  Forall (fun v => formSchema length v = []) (submitted (act length a m))
  /\ (closed (act length a m)
      <= List.length (submitted (act length a m)))%nat.
Proof.
  intros Hall Hclosed. destruct a as [f value | r]; simpl; [auto |].
  unfold submitForm.
  destruct (formSchema length (values m)) as [| issue rest] eqn:Hs; [| auto].
  assert (Hnew : Forall (fun v => formSchema length v = [])
                   (submitted m ++ [values m])).
  { apply List.Forall_app. split; [exact Hall |].
    constructor; [exact Hs | constructor]. }
  unfold handleSubmit. destruct r; simpl;
    (split; [exact Hnew |]); rewrite List.length_app; simpl; lia.
Qed.

(** X22. Whatever the user types and however often the form is
    submitted, [onSubmit] only ever receives values that satisfy the
    schema: a name, a username and a code of six UTF-16 code units or
    more, hence of six bytes or more. The handler has called [onClose]
    at most once per call of [onSubmit]. The empty string has length 0
    and no string has more code units than bytes, which is what
    [Hempty] and [Hbytes] record. *)
Theorem only_valid_values_are_submitted (actions : list Action)
    (Hempty : length "" = 0%nat)
    (Hbytes : forall s, (length s <= String.length s)%nat) :
  let m := actAll length actions freshModal in
  Forall (fun v =>
            name v <> "" /\ username v <> ""
            /\ (6 <= String.length (code v))%nat
            /\ (6 <= length (code v))%nat) (submitted m)
  /\ (closed m <= List.length (submitted m))%nat.
Proof.
  cbv zeta.
  assert (Hgen : forall m,
    Forall (fun v => formSchema length v = []) (submitted m) ->
    (closed m <= List.length (submitted m))%nat ->
    Forall (fun v => formSchema length v = [])
      (submitted (actAll length actions m))
    /\ (closed (actAll length actions m)
        <= List.length (submitted (actAll length actions m)))%nat).
  { induction actions as [| a rest IH]; intros m Hall Hclosed; simpl.
    - auto.
    - destruct (act_keeps_valid a m Hall Hclosed) as [H1 H2].
      apply IH; assumption. }
  destruct (Hgen freshModal (Forall_nil _) (le_n 0)) as [Hall Hclosed].
  split; [| exact Hclosed].
  eapply List.Forall_impl; [| exact Hall].
  intros v Hv. apply schema_lengths in Hv. destruct Hv as (H1 & H2 & H3).
  assert (Hfilled : forall s, (1 <= length s)%nat -> s <> "").
  { intros s Hs ->. rewrite Hempty in Hs. lia. }
  pose proof (Hbytes (code v)) as Hb.
  repeat split; [apply Hfilled; exact H1 | apply Hfilled; exact H2
                | lia | exact H3].
Qed.

End WithLength.

Lemma length_zero_iff_empty (s : string) :
  String.length s = 0%nat <-> s = "".
Proof.
  destruct s; simpl; split; try reflexivity; discriminate.
Qed.

Lemma schema_accepts_iff_witness :
  let v := {| name := "Ada"; username := "ada@example.com";
              code := "123456"; link := None |} in
  (forall s, String.length s = 0%nat <-> s = "")
  /\ formSchema String.length v = []
  /\ formSchema String.length (setField FieldCode "12345" v)
     = [("code", "Code must be at least 6 characters")].
Proof.
  cbv zeta. split; [exact length_zero_iff_empty |].
  destruct (schema_accepts_iff String.length
              {| name := "Ada"; username := "ada@example.com";
                 code := "123456"; link := None |} length_zero_iff_empty)
    as [Hiff _].
  split; [| reflexivity].
  apply Hiff. simpl. repeat split; try discriminate. lia.
Defined.

Lemma submit_outcomes_witness :
  let m :=
    actAll String.length
      [Edit FieldName "Ada"; Edit FieldUsername "ada@example.com";
       Edit FieldCode "12345"] freshModal in
  formSchema String.length (values m) <> []
  /\ submitted (submitForm String.length (Resolved tt) m) = []
  /\ issues (submitForm String.length (Resolved tt) m)
     = [("code", "Code must be at least 6 characters")].
Proof.
  cbv zeta.
  assert (Hbad :
    formSchema String.length
      (values (actAll String.length
                 [Edit FieldName "Ada"; Edit FieldUsername "ada@example.com";
                  Edit FieldCode "12345"] freshModal))
    <> []) by discriminate.
  split; [exact Hbad |].
  pose proof (submit_outcomes String.length (Resolved tt)
                (actAll String.length
                   [Edit FieldName "Ada";
                    Edit FieldUsername "ada@example.com";
                    Edit FieldCode "12345"] freshModal))
    as H.
  cbv zeta in H. destruct H as [Hinvalid _].
  destruct (Hinvalid Hbad) as (Hsub & _ & _ & Hissues).
  split; [exact Hsub | exact Hissues].
Defined.

Lemma only_valid_values_are_submitted_witness :
  let actions :=
    [Edit FieldName "Ada"; Edit FieldUsername "ada@example.com";
     Edit FieldCode "12345"; Submit (Resolved tt);
     Edit FieldCode "123456"; Submit (Rejected "offline");
     Submit (Resolved tt)] in
  let m := actAll String.length actions freshModal in
  String.length "" = 0%nat
  /\ List.length (submitted m) = 2%nat
  /\ closed m = 1%nat
  /\ Forall (fun v => (6 <= String.length (code v))%nat) (submitted m).
Proof.
  cbv zeta. split; [reflexivity |]. split; [reflexivity |].
  split; [reflexivity |].
  destruct (only_valid_values_are_submitted String.length
              [Edit FieldName "Ada"; Edit FieldUsername "ada@example.com";
               Edit FieldCode "12345"; Submit (Resolved tt);
               Edit FieldCode "123456"; Submit (Rejected "offline");
               Submit (Resolved tt)] eq_refl (fun s => le_n _))
    as [Hall _].
  eapply List.Forall_impl; [| exact Hall].
  intros v (_ & _ & Hcode & _). exact Hcode.
Defined.

End AddModelModalFacts.

(** ** Behaviour of GroupsPage *)

Module GroupsPageFacts.

Import Js GroupsPage.

(** X23. Deleting the selected group: whatever [deleteGroup] and
    [refreshData] do, the confirmation dialog ends closed and the
    selection cleared, and exactly one delete call was made, for the
    selected group. With nothing selected the handler does nothing at
    all, so an open dialog stays open. *)
Theorem delete_always_closes_dialog (deleted refreshed : Settled unit)
    (p : Page) :
  let p' := handleDeleteGroup deleted refreshed p in
  (selectedGroup p = None -> p' = p)
  /\ (forall g, selectedGroup p = Some g ->
      isDeleteDialogOpen p' = false
      /\ selectedGroup p' = None
      /\ isAddGroupModalOpen p' = isAddGroupModalOpen p
      /\ exists rest,
           calls p' = (calls p ++ CallDeleteGroup (id g) :: rest)%list
           /\ (rest = [] \/ rest = [CallRefreshData])).
Proof.
  cbv zeta. unfold handleDeleteGroup. split.
  - intros H. rewrite H. reflexivity.
  - intros g H. rewrite H.
    destruct deleted as [u | message]; [destruct refreshed as [u' | message] |];
      simpl; repeat (split; [reflexivity |]).
    + exists [CallRefreshData]. rewrite <- List.app_assoc. auto.
    + exists [CallRefreshData]. rewrite <- List.app_assoc. auto.
    + exists []. auto.
Qed.

(** X24. What the user is told after a delete. If [deleteGroup]
    fails, one destructive toast carries its message ("Failed to delete
    group" when it has none) and the data is not refreshed. If the
    delete succeeds and only the refresh fails, the success toast is
    followed by the same destructive toast, although the group is
    gone. *)
Theorem delete_toasts (p : Page) (g : Selected) (message : string)
    (Hsel : selectedGroup p = Some g) :
  toasts (handleDeleteGroup (Rejected message) (Resolved tt) p)
  = (toasts p ++ [toastDeleteFailed message])%list
  /\ calls (handleDeleteGroup (Rejected message) (Resolved tt) p)
     = (calls p ++ [CallDeleteGroup (id g)])%list
  /\ toasts (handleDeleteGroup (Resolved tt) (Rejected message) p)
     = (toasts p ++ [toastDeleted; toastDeleteFailed message])%list
  /\ toasts (handleDeleteGroup (Resolved tt) (Resolved tt) p)
     = (toasts p ++ [toastDeleted])%list
  /\ toast_description (toastDeleteFailed message) <> ""
  /\ destructive (toastDeleteFailed message) = true.
Proof.
  unfold handleDeleteGroup. rewrite Hsel. simpl.
  repeat split; try (rewrite <- List.app_assoc; reflexivity).
  unfold messageOr. destruct (String.eqb_spec message "") as [-> | Hne];
    [discriminate | exact Hne].
Qed.

(** X25. The delete button of a card is shown exactly to an Admin, to
    a Manager, and when the group's [created_by] is strictly equal to
    the stored user id: the same id, or both null. So a user with
    another role and no stored id sees the button exactly on the groups
    whose [created_by] is null, and one with a stored id exactly on the
    groups created under that id. *)
Theorem delete_permission (currentRole userId : option string)
    (created_by : Column) :
  (canDelete currentRole userId created_by = true
   <-> currentRole = Some "Admin"
       \/ currentRole = Some "Manager"
       \/ (exists u, created_by = Value u /\ userId = Some u)
       \/ (created_by = NullValue /\ userId = None))
  /\ (currentRole <> Some "Admin" -> currentRole <> Some "Manager" ->
      (userId = None ->
       (canDelete currentRole userId created_by = true
        <-> created_by = NullValue))
      /\ (forall u, userId = Some u ->
          (canDelete currentRole userId created_by = true
           <-> created_by = Value u))).
Proof.
  assert (Hsame :
    sameUser created_by userId = true
    <-> (exists u, created_by = Value u /\ userId = Some u)
        \/ (created_by = NullValue /\ userId = None)).
  { unfold sameUser.
    destruct created_by as [| | c]; destruct userId as [u |]; simpl;
      split; intros H;
      try discriminate;
      try (destruct H as [(u' & Hc & Hu) | (Hc & Hu)]; discriminate);
      first
        [ reflexivity
        | right; split; reflexivity
        | apply String.eqb_eq in H; subst; left; eexists; split; reflexivity
        | destruct H as [(u' & Hc & Hu) | (Hc & Hu)];
          [ inversion Hc; inversion Hu; subst; apply String.eqb_refl
          | discriminate ] ]. }
  assert (Hrole :
    match currentRole with
    | Some role => (role =? "Admin") || (role =? "Manager")
    | None => false
    end = true
    <-> currentRole = Some "Admin" \/ currentRole = Some "Manager").
  { destruct currentRole as [role |].
    - rewrite Bool.orb_true_iff, !String.eqb_eq.
      split; intros [H | H]; [left | right | left | right]; congruence.
    - split; [discriminate | intros [H | H]; discriminate]. }
  assert (Hiff :
    canDelete currentRole userId created_by = true
    <-> currentRole = Some "Admin"
        \/ currentRole = Some "Manager"
        \/ (exists u, created_by = Value u /\ userId = Some u)
        \/ (created_by = NullValue /\ userId = None)).
  { unfold canDelete. rewrite Bool.orb_true_iff, Hrole, Hsame. tauto. }
  split; [exact Hiff |].
  intros Ha Hm. split.
  - intros Hu. rewrite Hiff. split.
    + intros [H | [H | [(u & _ & H) | (H & _)]]];
        [contradiction | contradiction | congruence | exact H].
    + intros H. right. right. right. split; assumption.
  - intros u Hu. rewrite Hiff. split.
    + intros [H | [H | [(u' & Hc & H) | (_ & H)]]];
        [contradiction | contradiction | congruence | congruence].
    + intros H. right. right. left. exists u. split; assumption.
Qed.


(** X27. The "New Group" dialog is closed by the handler exactly when
    a user id is stored and both [createGroup] and [addUserToGroup]
    succeeded. Every failure, a failing refresh after a successful
    creation included, ends with the toast "Failed to create group";
    when the membership call fails the group has been created all the
    same and the dialog stays open. *)
Theorem create_group_outcome (userId : option string) (v : GroupValues)
    (created : Settled string) (added refreshed : Settled unit) (p : Page)
    (Hopen : isAddGroupModalOpen p = true) :
  let p' := onSubmitGroup userId v created added refreshed p in
  let succeeded :=
    truthy userId
    && match created, added with
       | Resolved _, Resolved _ => true
       | _, _ => false
       end in
  isAddGroupModalOpen p' = negb succeeded
  /\ (succeeded = false -> toasts p' = (toasts p ++ [toastCreateFailed])%list)
  /\ (succeeded = true ->
      toasts p'
      = (toasts p ++ toastCreated
           :: match refreshed with
              | Resolved _ => []
              | Rejected _ => [toastCreateFailed]
              end)%list)
  /\ isDeleteDialogOpen p' = isDeleteDialogOpen p
  /\ selectedGroup p' = selectedGroup p.
Proof.
  cbv zeta. unfold onSubmitGroup.
  destruct (truthy userId); simpl;
    [| repeat split; first [exact Hopen | discriminate | reflexivity]].
  destruct created as [newId | m1]; simpl;
    [| repeat split; first [exact Hopen | discriminate | reflexivity]].
  destruct added as [a | m2]; simpl;
    [| repeat split; first [exact Hopen | discriminate | reflexivity]].
  destruct refreshed as [r | m3]; simpl;
    repeat split; try discriminate; try reflexivity;
    intros _; rewrite <- List.app_assoc; reflexivity.
Qed.

Lemma delete_toasts_witness :
  let p :=
    {| isAddGroupModalOpen := false; isShareModalOpen := false;
       isDeleteDialogOpen := true;
       selectedGroup := Some {| id := "group-1"; title := "Team" |};
       isMobileSidebarOpen := false; toasts := []; calls := [] |} in
  toasts (handleDeleteGroup (Resolved tt) (Rejected "offline") p)
  = [toastDeleted; toastDeleteFailed "offline"]
  /\ toast_description (toastDeleteFailed "offline") = "offline".
Proof.
  cbv zeta. split; [| reflexivity].
  destruct (delete_toasts
              {| isAddGroupModalOpen := false; isShareModalOpen := false;
                 isDeleteDialogOpen := true;
                 selectedGroup := Some {| id := "group-1"; title := "Team" |};
                 isMobileSidebarOpen := false; toasts := []; calls := [] |}
              {| id := "group-1"; title := "Team" |} "offline" eq_refl)
    as (_ & _ & Hboth & _).
  exact Hboth.
Defined.

Lemma create_group_outcome_witness :
  let p :=
    {| isAddGroupModalOpen := true; isShareModalOpen := false;
       isDeleteDialogOpen := false; selectedGroup := None;
       isMobileSidebarOpen := false; toasts := []; calls := [] |} in
  let p' :=
    onSubmitGroup (Some "user-1")
      {| group_name := "Team"; group_description := None |}
      (Resolved "group-9") (Rejected "denied") (Resolved tt) p in
  isAddGroupModalOpen p' = true
  /\ toasts p' = [toastCreateFailed]
  /\ calls p' = [CallCreateGroup "Team" None "user-1";
                 CallAddUserToGroup "user-1" "group-9"].
Proof.
  cbv zeta.
  pose proof (create_group_outcome (Some "user-1")
                {| group_name := "Team"; group_description := None |}
                (Resolved "group-9") (Rejected "denied") (Resolved tt)
                {| isAddGroupModalOpen := true; isShareModalOpen := false;
                   isDeleteDialogOpen := false; selectedGroup := None;
                   isMobileSidebarOpen := false; toasts := []; calls := [] |}
                eq_refl) as H.
  cbv zeta in H. destruct H as (Hopen & Hfail & _).
  split; [exact Hopen |]. split; [exact (Hfail eq_refl) | reflexivity].
Defined.

End GroupsPageFacts.
